(** * Employee Salary Management System: a shallow embedding

    The program under study is [employee_salary_system.py]: one class,
    [EmployeeSalaryManagement], whose methods fetch a table of employees from
    a MySQL store into a pandas [DataFrame], derive three columns from it,
    print a summary, write CSV files and insert one row; and a [main] that
    runs them in sequence under a [try]/[except]/[finally].

    The embedding follows the code:
    - numbers are IEEE 754 binary64, the dtype pandas gives the numeric
      columns of a query ([float64]); Rocq's primitive floats are that type;
    - a [DataFrame] is an ordered list of named, typed columns plus the
      length of its index; column assignment replaces in place or appends;
    - [DataFrame] objects live in a heap and are referred to by location, so
      that in-place column assignment and [.copy()] mean what they mean in
      Python;
    - every method is a computation in a state-and-exception monad; the
      program's [try]/[except] blocks are [try_except];
    - what the outside world decides (whether the store answers, what it
      returns, whether a file can be written, what time it is, how a float
      prints) is read from an [environment] record;
    - a CSV file is the table handed to [to_csv], kept under its path.

    The columns of a fetched table carry the dtypes of the query's schema
    (int64 for [employee_id], object for [name], float64 for the three
    numeric columns), whatever the number of rows. *)

From Stdlib Require Import Floats.
From stdpp Require Import base option list gmap strings pretty.

Open Scope string_scope.
#[local] Set Warnings "-inexact-float".

(** ** binary64 arithmetic as NumPy performs it *)

Module Float64.

Definition two52 : float := 0x1p52%float.

(** C's [rint] under the default rounding mode: the nearest integer, ties
    to even, the sign of the argument kept (so [rint (-0.2)] is [-0]).
    Below [2^52] in magnitude, adding and subtracting [2^52] rounds to an
    integer; from [2^52] on every binary64 is one already. *)
Definition rint (x : float) : float :=
  let a := abs x in
  if (a <? two52)%float then
    let r := ((a + two52) - two52)%float in
    if get_sign x then (- r)%float else r
  else x.

(** [numpy.round(x, 2)], which [Series.round(2)] applies to a float64
    column: multiply by [10**2], [rint], divide by [10**2]. *)
Definition round2 (x : float) : float :=
  (rint (x * 100) / 100)%float.

(** [Series.sum()] skips NaN and starts from zero; the additions are
    taken in index order. *)
Definition nansum (l : list float) : float :=
  foldl (fun acc x => if is_nan x then acc else (acc + x)%float) 0%float l.

Definition count_valid (l : list float) : nat :=
  length (filter (fun x => is_nan x = false) l).

Definition of_nat (n : nat) : float :=
  Nat.iter n (fun x => (x + 1)%float) 0%float.

(** The division [Series.mean()] performs, dividend and divisor, when it
    performs one: pandas' [nanmean] returns
    [the_sum / count if count > 0 else np.nan], so that nothing is divided
    where nothing is counted. *)
Definition mean_division (l : list float) : option (float * float) :=
  match count_valid l with
  | O => None
  | S _ as n => Some (nansum l, of_nat n)
  end.

(** [Series.mean()] *)
Definition nanmean (l : list float) : float :=
  match mean_division l with
  | Some (the_sum, count) => (the_sum / count)%float
  | None => nan
  end.

End Float64.

(** ** The pandas fragment the program uses *)

(** Python exceptions, by class, with their message. *)
Inductive exn_class := MySQLError | KeyError | TypeError | OSError | RuntimeError.

Record exn := Exn { exn_kind : exn_class; exn_msg : string }.

Inductive result (A : Type) :=
| Ok (a : A)
| Raise (e : exn).
Arguments Ok {A} a.
Arguments Raise {A} e.

Module Pandas.

(** A cell of a row. *)
Inductive value :=
| VInt (n : Z)
| VStr (s : string)
| VFloat (x : float).

(** A column, by dtype: int64, object (holding [str]) and float64. *)
Inductive Series :=
| SInt (l : list Z)
| SObj (l : list string)
| SFloat (l : list float).

Record DataFrame := mkDataFrame {
  index_len : nat;                      (* len(df.index), a RangeIndex *)
  columns : list (string * Series)      (* in column order *)
}.

(** A row as [iterrows] yields it: a Series indexed by the column names. *)
Definition Row := list (string * value).

Definition series_get (s : Series) (i : nat) : option value :=
  match s with
  | SInt l => VInt <$> l !! i
  | SObj l => VStr <$> l !! i
  | SFloat l => VFloat <$> l !! i
  end.

Definition series_of_value (v : value) : Series :=
  match v with
  | VInt n => SInt [n]
  | VStr s => SObj [s]
  | VFloat x => SFloat [x]
  end.

Fixpoint lookup_col (c : string) (cols : list (string * Series)) : option Series :=
  match cols with
  | [] => None
  | (k, s) :: rest => if String.eqb k c then Some s else lookup_col c rest
  end.

(** [df[c]] *)
Definition getitem (df : DataFrame) (c : string) : result Series :=
  match lookup_col c (columns df) with
  | Some s => Ok s
  | None => Raise (Exn KeyError c)
  end.

Fixpoint assign_col (c : string) (s : Series) (cols : list (string * Series))
  : list (string * Series) :=
  match cols with
  | [] => [(c, s)]
  | (k, s0) :: rest =>
      if String.eqb k c then (k, s) :: rest else (k, s0) :: assign_col c s rest
  end.

(** [df[c] = s] for a Series [s] over the frame's own index: an existing
    column is replaced where it stands, a new one goes last. *)
Definition setitem (df : DataFrame) (c : string) (s : Series) : DataFrame :=
  mkDataFrame (index_len df) (assign_col c s (columns df)).

(** [df[c] = text]: a scalar is broadcast over the index. *)
Definition setitem_scalar (df : DataFrame) (c : string) (text : string) : DataFrame :=
  setitem df c (SObj (replicate (index_len df) text)).

(** Elementwise arithmetic between two columns of one frame (same index,
    so position by position). The model covers float64 operands, which is
    what the program's numeric columns are; any other dtype is reported
    as a [TypeError]. *)
Definition series_binop (op : float -> float -> float) (a b : Series) : result Series :=
  match a, b with
  | SFloat x, SFloat y => Ok (SFloat (zip_with op x y))
  | _, _ => Raise (Exn TypeError "unsupported operand type(s)")
  end.

Definition series_mul := series_binop PrimFloat.mul.
Definition series_add := series_binop PrimFloat.add.
Definition series_sub := series_binop PrimFloat.sub.

(** [s / k] for a Python number [k] *)
Definition series_truediv_scalar (a : Series) (k : float) : result Series :=
  match a with
  | SFloat x => Ok (SFloat ((fun v => (v / k)%float) <$> x))
  | _ => Raise (Exn TypeError "unsupported operand type(s)")
  end.

(** [s.round(2)]: NumPy leaves integers as they are and rounds floats;
    an object column is refused. *)
Definition series_round2 (a : Series) : result Series :=
  match a with
  | SFloat x => Ok (SFloat (Float64.round2 <$> x))
  | SInt x => Ok (SInt x)
  | SObj _ => Raise (Exn TypeError "Expected numeric dtype, got object instead.")
  end.

Definition series_len (a : Series) : nat :=
  match a with
  | SInt l => length l
  | SObj l => length l
  | SFloat l => length l
  end.

(** [s.sum()] of a float64 column; of a column without rows it is zero
    whatever the dtype, there being nothing to add. *)
Definition series_sum (a : Series) : result float :=
  match a with
  | SFloat x => Ok (Float64.nansum x)
  | SInt [] | SObj [] => Ok (Float64.nansum [])
  | _ => Raise (Exn TypeError "unsupported dtype for sum")
  end.

(** [s.mean()] of a float64 column; of a column without rows it is NaN
    whatever the dtype. *)
Definition series_mean (a : Series) : result float :=
  match a with
  | SFloat x => Ok (Float64.nanmean x)
  | SInt [] | SObj [] => Ok (Float64.nanmean [])
  | _ => Raise (Exn TypeError "unsupported dtype for mean")
  end.

(** The row at position [i]: each column's cell there, under its name. *)
Definition row_at (df : DataFrame) (i : nat) : option Row :=
  mapM (fun '(c, s) => (fun v => (c, v)) <$> series_get s i) (columns df).

(** [df.iterrows()], the rows in index order. *)
Definition iterrows (df : DataFrame) : list Row :=
  omap (row_at df) (seq 0 (index_len df)).

Fixpoint lookup_cell (c : string) (r : Row) : option value :=
  match r with
  | [] => None
  | (k, v) :: rest => if String.eqb k c then Some v else lookup_cell c rest
  end.

(** [row[c]] *)
Definition row_getitem (r : Row) (c : string) : result value :=
  match lookup_cell c r with
  | Some v => Ok v
  | None => Raise (Exn KeyError c)
  end.

(** [pd.DataFrame({name: [v], ...})]: one row, the dict's keys in order. *)
Definition of_dict (d : list (string * value)) : DataFrame :=
  mkDataFrame 1 ((fun '(c, v) => (c, series_of_value v)) <$> d).

Definition column_names (df : DataFrame) : list string := (columns df).*1.

(** [df.at[i, c]], as an option *)
Definition cell (df : DataFrame) (c : string) (i : nat) : option value :=
  s ← lookup_col c (columns df); series_get s i.

End Pandas.
Import Pandas.

(** ** The store, the machine state and the monad of the methods *)

(** A row of the [employees] table, as the program's query selects it. *)
Record employee := mkEmployee {
  employee_id : Z;
  name : string;
  basic_salary : float;
  bonus_percentage : float;
  tax_percentage : float
}.

(** What [pd.read_sql] builds from the rows of the query: the five selected
    columns, in the order of the [SELECT], numeric ones as float64. *)
Definition read_sql_frame (rows : list employee) : DataFrame :=
  mkDataFrame (length rows)
    [ ("employee_id", SInt (employee_id <$> rows));
      ("name", SObj (name <$> rows));
      ("basic_salary", SFloat (basic_salary <$> rows));
      ("bonus_percentage", SFloat (bonus_percentage <$> rows));
      ("tax_percentage", SFloat (tax_percentage <$> rows)) ].

Definition loc := nat.    (* a DataFrame object *)
Definition conn := nat.   (* an open store connection *)

Inductive level := INFO | ERROR.

(** What a run does that can be observed from outside, newest first in
    [trace]. Store and file events record the attempt, whatever its outcome. *)
Inductive event :=
| Print (line : string)
| Log (lvl : level) (msg : string)
| Connect (opened : option conn)
| ReadSql (c : conn)
| Insert (c : conn) (who : string) (basic bonus tax : float)
| Close (c : conn)
| MakeDirs (d : string)
| ToCsv (path : string).

(** The attributes [__init__] sets. *)
Record EmployeeSalaryManagement := mkSelf {
  host : string;
  user : string;
  password : string;
  database : string;
  connection : option conn;
  df_employees : option loc
}.

Record state := mkState {
  self : EmployeeSalaryManagement;
  heap : list DataFrame;             (* DataFrame objects, by location *)
  files : gmap string DataFrame;     (* CSV files, by path: the table written *)
  dirs : gset string;                (* directories that exist *)
  trace : list event;
  clock : nat;                       (* readings of datetime.now() so far *)
  handles : nat                      (* connections opened so far *)
}.

(** What the world outside the program decides. *)
Record environment := mkEnv {
  connect_outcome : result unit;              (* mysql.connector.connect *)
  read_sql_outcome : result (list employee);  (* the SELECT *)
  insert_outcome : result Z;                  (* the INSERT; cursor.lastrowid *)
  makedirs_outcome : string -> result unit;
  to_csv_outcome : string -> result unit;
  now : nat -> string;            (* '%Y-%m-%d %H:%M:%S' of the k-th reading *)
  str_float : float -> string;    (* str(x) *)
  format_money : float -> string; (* format(x, ',.2f') *)
  to_string : DataFrame -> string (* df.to_string(index=False) *)
}.

Definition Py (A : Type) : Type := state -> result A * state.

Definition ret {A} (a : A) : Py A := fun s => (Ok a, s).

Definition bind {A B} (m : Py A) (k : A -> Py B) : Py B :=
  fun s =>
    match m s with
    | (Ok a, s') => k a s'
    | (Raise e, s') => (Raise e, s')
    end.

Definition raise {A} (e : exn) : Py A := fun s => (Raise e, s).

(** [try: m except Exception as e: h e]; what [m] did before raising stays done. *)
Definition try_except {A} (m : Py A) (h : exn -> Py A) : Py A :=
  fun s =>
    match m s with
    | (Ok a, s') => (Ok a, s')
    | (Raise e, s') => h e s'
    end.

(** [try: m finally: fin] *)
Definition try_finally {A} (m : Py A) (fin : Py unit) : Py A :=
  fun s =>
    match m s with
    | (r, s') =>
        match fin s' with
        | (Ok _, s'') => (r, s'')
        | (Raise e, s'') => (Raise e, s'')
        end
    end.

Declare Scope py_scope.
Delimit Scope py_scope with py.
Notation "x <- m ;; k" := (bind m (fun x => k))
  (at level 100, m at next level, right associativity) : py_scope.
Notation "m ;;; k" := (bind m (fun _ => k))
  (at level 100, right associativity) : py_scope.
Open Scope py_scope.

Definition lift {A} (r : result A) : Py A := fun s => (r, s).

Fixpoint for_each {A} (l : list A) (body : A -> Py unit) : Py unit :=
  match l with
  | [] => ret tt
  | x :: rest => body x ;;; for_each rest body
  end.

Definition get_self : Py EmployeeSalaryManagement := fun s => (Ok (self s), s).

Definition set_self (o : EmployeeSalaryManagement) (s : state) : state :=
  mkState o (heap s) (files s) (dirs s) (trace s) (clock s) (handles s).

Definition set_heap (h : list DataFrame) (s : state) : state :=
  mkState (self s) h (files s) (dirs s) (trace s) (clock s) (handles s).

Definition set_files (f : gmap string DataFrame) (s : state) : state :=
  mkState (self s) (heap s) f (dirs s) (trace s) (clock s) (handles s).

Definition set_dirs (d : gset string) (s : state) : state :=
  mkState (self s) (heap s) (files s) d (trace s) (clock s) (handles s).

Definition add_event (ev : event) (s : state) : state :=
  mkState (self s) (heap s) (files s) (dirs s) (ev :: trace s) (clock s) (handles s).

Definition tick (s : state) : state :=
  mkState (self s) (heap s) (files s) (dirs s) (trace s) (S (clock s)) (handles s).

Definition set_handles (n : nat) (s : state) : state :=
  mkState (self s) (heap s) (files s) (dirs s) (trace s) (clock s) n.

Definition with_connection (c : option conn) (o : EmployeeSalaryManagement) :=
  mkSelf (host o) (user o) (password o) (database o) c (df_employees o).

Definition with_df (d : option loc) (o : EmployeeSalaryManagement) :=
  mkSelf (host o) (user o) (password o) (database o) (connection o) d.

Definition emit (ev : event) : Py unit := fun s => (Ok tt, add_event ev s).
Definition print (line : string) : Py unit := emit (Print line).
Definition logger_info (msg : string) : Py unit := emit (Log INFO msg).
Definition logger_error (msg : string) : Py unit := emit (Log ERROR msg).

(** [self.connection = c] and [self.df_employees = d] *)
Definition set_connection (c : option conn) : Py unit :=
  fun s => (Ok tt, set_self (with_connection c (self s)) s).
Definition set_df_employees (d : option loc) : Py unit :=
  fun s => (Ok tt, set_self (with_df d (self s)) s).

(** A new DataFrame object. *)
Definition alloc (df : DataFrame) : Py loc :=
  fun s => (Ok (length (heap s)), set_heap (heap s ++ [df])%list s).

Definition deref (l : loc) : Py DataFrame :=
  fun s =>
    match heap s !! l with
    | Some df => (Ok df, s)
    | None => (Raise (Exn RuntimeError "no such object"), s)
    end.

(** Mutation of the object at [l], in place. *)
Definition update (l : loc) (f : DataFrame -> DataFrame) : Py unit :=
  df <- deref l ;;
  fun s => (Ok tt, set_heap (<[l := f df]> (heap s)) s).

Definition df_getitem (l : loc) (c : string) : Py Series :=
  df <- deref l ;; lift (getitem df c).

Definition df_setitem (l : loc) (c : string) (v : Series) : Py unit :=
  update l (fun df => setitem df c v).

Definition nl : string := String (Ascii.ascii_of_nat 10) "".

(** [ch * n] *)
Fixpoint str_repeat (ch : string) (n : nat) : string :=
  match n with
  | O => ""
  | S n' => ch ++ str_repeat ch n'
  end.

(** [posixpath.join(a, b)] *)
Definition path_join (a b : string) : string :=
  if String.prefix "/" b then b
  else if String.eqb a "" then b
  else if String.eqb (String.substring (String.length a - 1) 1 a) "/" then a ++ b
  else a ++ "/" ++ b.

(** ** The methods of [EmployeeSalaryManagement] *)

Section Methods.

Context (E : environment).

(** *** What the program asks of the outside world *)

Definition mysql_connect : Py conn :=
  fun s =>
    match connect_outcome E with
    | Ok _ =>
        let c := handles s in
        (Ok c, add_event (Connect (Some c)) (set_handles (S c) s))
    | Raise e => (Raise e, add_event (Connect None) s)
    end.

Definition pd_read_sql (c : option conn) : Py DataFrame :=
  match c with
  | None => raise (Exn RuntimeError "no connection")
  | Some c =>
      emit (ReadSql c) ;;;
      rows <- lift (read_sql_outcome E) ;;
      ret (read_sql_frame rows)
  end.

(** [cursor()], [execute], [commit], [lastrowid], [cursor.close()] *)
Definition mysql_insert (c : option conn) (who : string) (basic bonus tax : float) : Py Z :=
  match c with
  | None => raise (Exn RuntimeError "no connection")
  | Some c =>
      emit (Insert c who basic bonus tax) ;;;
      lift (insert_outcome E)
  end.

Definition mysql_close (c : conn) : Py unit := emit (Close c).

Definition os_path_exists (d : string) : Py bool :=
  fun s => (Ok (bool_decide (d ∈ dirs s)), s).

Definition os_makedirs (d : string) : Py unit :=
  emit (MakeDirs d) ;;;
  lift (makedirs_outcome E d) ;;;
  fun s => (Ok tt, set_dirs ({[ d ]} ∪ dirs s) s).

(** [df.to_csv(path, index=False)]: the file at [path] now holds [df]. *)
Definition to_csv (df : DataFrame) (path : string) : Py unit :=
  emit (ToCsv path) ;;;
  lift (to_csv_outcome E path) ;;;
  fun s => (Ok tt, set_files (<[path := df]> (files s)) s).

(** [datetime.now().strftime('%Y-%m-%d %H:%M:%S')] *)
Definition datetime_now : Py string :=
  fun s => (Ok (now E (clock s)), tick s).

(** [f"{v}"] *)
Definition str_value (v : value) : string :=
  match v with
  | VInt n => pretty n
  | VStr s => s
  | VFloat x => str_float E x
  end.

(** *** [connect_database] *)
Definition connect_database : Py bool :=
  try_except
    (c <- mysql_connect ;;
     set_connection (Some c) ;;;
     logger_info "Successfully connected to MySQL database" ;;;
     ret true)
    (fun e =>
       match exn_kind e with
       | MySQLError =>
           logger_error ("Error connecting to MySQL database: " ++ exn_msg e) ;;;
           ret false
       | _ => raise e
       end).

(** *** [fetch_employee_data] *)
Definition fetch_employee_data : Py (option loc) :=
  o <- get_self ;;
  ok <- match connection o with
        | None => connect_database
        | Some _ => ret true
        end ;;
  if negb ok then ret None
  else
    try_except
      (o <- get_self ;;
       df <- pd_read_sql (connection o) ;;
       l <- alloc df ;;
       set_df_employees (Some l) ;;;
       logger_info ("Successfully fetched " ++ pretty (index_len df) ++ " employee records") ;;;
       ret (Some l))
      (fun e =>
         logger_error ("Error fetching employee data: " ++ exn_msg e) ;;;
         ret None).

(** *** [calculate_salary_components] *)
Definition calculate_salary_components : Py (option loc) :=
  o <- get_self ;;
  match df_employees o with
  | None =>
      logger_error "No employee data available. Please fetch data first." ;;;
      ret None
  | Some l =>
      try_except
        ((* bonus = basic_salary * (bonus_percentage / 100) *)
         b <- df_getitem l "basic_salary" ;;
         p <- df_getitem l "bonus_percentage" ;;
         q <- lift (series_truediv_scalar p 100) ;;
         x <- lift (series_mul b q) ;;
         df_setitem l "bonus" x ;;;
         (* tax = basic_salary * (tax_percentage / 100) *)
         b <- df_getitem l "basic_salary" ;;
         p <- df_getitem l "tax_percentage" ;;
         q <- lift (series_truediv_scalar p 100) ;;
         x <- lift (series_mul b q) ;;
         df_setitem l "tax" x ;;;
         (* net_salary = basic_salary + bonus - tax *)
         b <- df_getitem l "basic_salary" ;;
         bo <- df_getitem l "bonus" ;;
         y <- lift (series_add b bo) ;;
         t <- df_getitem l "tax" ;;
         x <- lift (series_sub y t) ;;
         df_setitem l "net_salary" x ;;;
         (* round to 2 decimal places *)
         bo <- df_getitem l "bonus" ;;
         x <- lift (series_round2 bo) ;;
         df_setitem l "bonus" x ;;;
         t <- df_getitem l "tax" ;;
         x <- lift (series_round2 t) ;;
         df_setitem l "tax" x ;;;
         n <- df_getitem l "net_salary" ;;
         x <- lift (series_round2 n) ;;
         df_setitem l "net_salary" x ;;;
         logger_info "Salary components calculated successfully" ;;;
         ret (Some l))
        (fun e =>
           logger_error ("Error calculating salary components: " ++ exn_msg e) ;;;
           ret None)
  end.

(** *** [generate_salary_slips] *)

Definition slip_filename (id : value) : string :=
  "salary_slip_" ++ str_value id ++ ".csv".

(** The body of the loop over [iterrows()]. *)
Definition write_slip (output_dir : string) (employee : Row) : Py unit :=
  id <- lift (row_getitem employee "employee_id") ;;
  nm <- lift (row_getitem employee "name") ;;
  basic <- lift (row_getitem employee "basic_salary") ;;
  bp <- lift (row_getitem employee "bonus_percentage") ;;
  bonus <- lift (row_getitem employee "bonus") ;;
  tp <- lift (row_getitem employee "tax_percentage") ;;
  tax <- lift (row_getitem employee "tax") ;;
  net <- lift (row_getitem employee "net_salary") ;;
  stamp <- datetime_now ;;
  let slip_df := of_dict
    [ ("Employee ID", id);
      ("Name", nm);
      ("Basic Salary", basic);
      ("Bonus Percentage", VStr (str_value bp ++ "%"));
      ("Bonus Amount", bonus);
      ("Tax Percentage", VStr (str_value tp ++ "%"));
      ("Tax Amount", tax);
      ("Net Salary", net);
      ("Generated Date", VStr stamp) ] in
  id' <- lift (row_getitem employee "employee_id") ;;
  let filename := slip_filename id' in
  let filepath := path_join output_dir filename in
  to_csv slip_df filepath ;;;
  logger_info ("Generated salary slip: " ++ filename).

Definition generate_salary_slips (output_dir : string) : Py bool :=
  o <- get_self ;;
  match df_employees o with
  | None =>
      logger_error "No employee data available for salary slip generation" ;;;
      ret false
  | Some l =>
      try_except
        (there <- os_path_exists output_dir ;;
         (if negb there then
            os_makedirs output_dir ;;;
            logger_info ("Created directory: " ++ output_dir)
          else ret tt) ;;;
         df <- deref l ;;
         for_each (iterrows df) (write_slip output_dir) ;;;
         logger_info ("All salary slips generated successfully in '" ++ output_dir
                      ++ "' directory") ;;;
         ret true)
        (fun e =>
           logger_error ("Error generating salary slips: " ++ exn_msg e) ;;;
           ret false)
  end.

(** *** [display_salary_summary] *)
Definition display_salary_summary : Py unit :=
  o <- get_self ;;
  match df_employees o with
  | None => logger_error "No employee data available"
  | Some l =>
      print (nl ++ str_repeat "=" 80) ;;;
      print "EMPLOYEE SALARY SUMMARY" ;;;
      print (str_repeat "=" 80) ;;;
      df <- deref l ;;
      print (to_string E df) ;;;
      print (str_repeat "=" 80) ;;;
      print (nl ++ "SALARY STATISTICS:") ;;;
      df <- deref l ;;
      print ("Total Employees: " ++ pretty (index_len df)) ;;;
      c <- df_getitem l "basic_salary" ;;
      x <- lift (series_sum c) ;;
      print ("Total Basic Salary: $" ++ format_money E x) ;;;
      c <- df_getitem l "bonus" ;;
      x <- lift (series_sum c) ;;
      print ("Total Bonus: $" ++ format_money E x) ;;;
      c <- df_getitem l "tax" ;;
      x <- lift (series_sum c) ;;
      print ("Total Tax: $" ++ format_money E x) ;;;
      c <- df_getitem l "net_salary" ;;
      x <- lift (series_sum c) ;;
      print ("Total Net Salary: $" ++ format_money E x) ;;;
      c <- df_getitem l "net_salary" ;;
      x <- lift (series_mean c) ;;
      print ("Average Net Salary: $" ++ format_money E x) ;;;
      print (str_repeat "=" 80)
  end.

(** *** [export_complete_report] *)
Definition export_complete_report (filename : string) : Py bool :=
  o <- get_self ;;
  match df_employees o with
  | None =>
      logger_error "No employee data available for export" ;;;
      ret false
  | Some l =>
      try_except
        ((* report_df = self.df_employees.copy() *)
         df <- deref l ;;
         report_df <- alloc df ;;
         stamp <- datetime_now ;;
         update report_df (fun d => setitem_scalar d "report_generated" stamp) ;;;
         out <- deref report_df ;;
         to_csv out filename ;;;
         logger_info ("Complete salary report exported to: " ++ filename) ;;;
         ret true)
        (fun e =>
           logger_error ("Error exporting complete report: " ++ exn_msg e) ;;;
           ret false)
  end.

(** *** [add_new_employee]; [None] stands for the [False] it returns on failure *)
Definition add_new_employee (who : string) (basic bonus tax : float) : Py (option Z) :=
  o <- get_self ;;
  ok <- match connection o with
        | None => connect_database
        | Some _ => ret true
        end ;;
  if negb ok then ret None
  else
    try_except
      (o <- get_self ;;
       employee_id <- mysql_insert (connection o) who basic bonus tax ;;
       logger_info ("New employee added successfully with ID: " ++ pretty employee_id) ;;;
       ret (Some employee_id))
      (fun e =>
         logger_error ("Error adding new employee: " ++ exn_msg e) ;;;
         ret None).

(** *** [close_connection] *)
Definition close_connection : Py unit :=
  o <- get_self ;;
  match connection o with
  | None => ret tt
  | Some c =>
      mysql_close c ;;;
      logger_info "Database connection closed"
  end.

(** ** [main] *)

(** [if new_employee_id:] *)
Definition truthy_id (r : option Z) : bool :=
  match r with
  | Some n => negb (Z.eqb n 0)
  | None => false
  end.

(** The body of [main]'s [try]; each [return] ends the nesting it sits in. *)
Definition main_try : Py unit :=
  print (nl ++ "1. Connecting to MySQL database...") ;;;
  ok <- connect_database ;;
  if negb ok then
    print "Failed to connect to database. Please check your credentials."
  else
    print (nl ++ "2. Fetching employee data...") ;;;
    fetched <- fetch_employee_data ;;
    match fetched with
    | None => print "Failed to fetch employee data."
    | Some _ =>
        print (nl ++ "3. Calculating salary components...") ;;;
        derived <- calculate_salary_components ;;
        match derived with
        | None => print "Failed to calculate salary components."
        | Some _ =>
            print (nl ++ "4. Displaying salary summary...") ;;;
            display_salary_summary ;;;
            print (nl ++ "5. Generating individual salary slips...") ;;;
            ok <- generate_salary_slips "salary_slips" ;;
            (if ok then print "Individual salary slips generated successfully!"
             else ret tt) ;;;
            print (nl ++ "6. Exporting complete salary report...") ;;;
            ok <- export_complete_report "complete_salary_report.csv" ;;
            (if ok then print "Complete salary report exported successfully!"
             else ret tt) ;;;
            print (nl ++ "7. Adding new employee (Example)...") ;;;
            new_employee_id <- add_new_employee "Alex Johnson" 62000 14 19 ;;
            (if truthy_id new_employee_id then
               print ("New employee added with ID: "
                      ++ match new_employee_id with Some n => pretty n | None => "False" end)
             else ret tt) ;;;
            print (nl ++ str_repeat "=" 60) ;;;
            print "SYSTEM EXECUTION COMPLETED SUCCESSFULLY!" ;;;
            print (str_repeat "=" 60)
        end
    end.

(** The object [main] constructs. *)
Definition salary_system : EmployeeSalaryManagement :=
  mkSelf "localhost" "root" "your_password" "employee_salary_management" None None.

Definition main : Py unit :=
  print (str_repeat "=" 60) ;;;
  print "EMPLOYEE SALARY MANAGEMENT SYSTEM" ;;;
  print (str_repeat "=" 60) ;;;
  (fun s => (Ok tt, set_self salary_system s)) ;;;
  try_finally
    (try_except main_try
       (fun e => logger_error ("An error occurred during system execution: " ++ exn_msg e)))
    close_connection.

End Methods.

(** ** The tables the statements speak of *)

(** The row [iterrows] yields for an employee once the derived columns are
    there: the five selected cells, then [bonus], [tax] and [net_salary]. *)
Definition derived_row (r : employee) : Row :=
  [ ("employee_id", VInt (employee_id r));
    ("name", VStr (name r));
    ("basic_salary", VFloat (basic_salary r));
    ("bonus_percentage", VFloat (bonus_percentage r));
    ("tax_percentage", VFloat (tax_percentage r));
    ("bonus", VFloat (Float64.round2 (basic_salary r * (bonus_percentage r / 100))));
    ("tax", VFloat (Float64.round2 (basic_salary r * (tax_percentage r / 100))));
    ("net_salary",
     VFloat (Float64.round2
               (basic_salary r + basic_salary r * (bonus_percentage r / 100)
                - basic_salary r * (tax_percentage r / 100)))) ].

(** The same, column by column. *)
Definition derived_frame (rows : list employee) : DataFrame :=
  mkDataFrame (length rows)
    [ ("employee_id", SInt (employee_id <$> rows));
      ("name", SObj (name <$> rows));
      ("basic_salary", SFloat (basic_salary <$> rows));
      ("bonus_percentage", SFloat (bonus_percentage <$> rows));
      ("tax_percentage", SFloat (tax_percentage <$> rows));
      ("bonus",
       SFloat ((fun r => Float64.round2 (basic_salary r * (bonus_percentage r / 100))%float)
               <$> rows));
      ("tax",
       SFloat ((fun r => Float64.round2 (basic_salary r * (tax_percentage r / 100))%float)
               <$> rows));
      ("net_salary",
       SFloat ((fun r => Float64.round2
                  (basic_salary r + basic_salary r * (bonus_percentage r / 100)
                   - basic_salary r * (tax_percentage r / 100))%float)
               <$> rows)) ].

(** The path of an employee's slip under [output_dir]. *)
Definition slip_path (E : environment) (output_dir : string) (id : Z) : string :=
  path_join output_dir (slip_filename E (VInt id)).

(** The one row of a slip, cell by cell. *)
Definition slip_row (E : environment) (r : employee) (stamp : string) : Row :=
  [ ("Employee ID", VInt (employee_id r));
    ("Name", VStr (name r));
    ("Basic Salary", VFloat (basic_salary r));
    ("Bonus Percentage", VStr (str_float E (bonus_percentage r) ++ "%"));
    ("Bonus Amount",
     VFloat (Float64.round2 (basic_salary r * (bonus_percentage r / 100))));
    ("Tax Percentage", VStr (str_float E (tax_percentage r) ++ "%"));
    ("Tax Amount",
     VFloat (Float64.round2 (basic_salary r * (tax_percentage r / 100))));
    ("Net Salary",
     VFloat (Float64.round2
               (basic_salary r + basic_salary r * (bonus_percentage r / 100)
                - basic_salary r * (tax_percentage r / 100))));
    ("Generated Date", VStr stamp) ].

Definition slip_columns : list string :=
  [ "Employee ID"; "Name"; "Basic Salary"; "Bonus Percentage"; "Bonus Amount";
    "Tax Percentage"; "Tax Amount"; "Net Salary"; "Generated Date" ].

(** The files a run of the slip loop leaves, the [k]-th clock reading going
    to the first employee. *)
Fixpoint slips_written (E : environment) (output_dir : string) (rows : list employee)
    (k : nat) (fs : gmap string DataFrame) : gmap string DataFrame :=
  match rows with
  | [] => fs
  | r :: rest =>
      slips_written E output_dir rest (S k)
        (<[slip_path E output_dir (employee_id r) := of_dict (slip_row E r (now E k))]> fs)
  end.

(** What the slip loop adds to the trace, newest first. *)
Fixpoint slip_events (E : environment) (output_dir : string) (rows : list employee)
    : list event :=
  match rows with
  | [] => []
  | r :: rest =>
      (slip_events E output_dir rest ++
       [ Log INFO ("Generated salary slip: " ++ slip_filename E (VInt (employee_id r)));
         ToCsv (slip_path E output_dir (employee_id r)) ])%list
  end.

(** A row of the aggregate report. *)
Definition report_row (r : employee) (stamp : string) : Row :=
  (derived_row r ++ [ ("report_generated", VStr stamp) ])%list.

(** ** Reading a trace *)

Definition is_store_event (ev : event) : bool :=
  match ev with
  | Connect _ | ReadSql _ | Insert _ _ _ _ _ | Close _ => true
  | _ => false
  end.

Definition is_output_event (ev : event) : bool :=
  match ev with
  | MakeDirs _ | ToCsv _ => true
  | _ => false
  end.

Definition is_insert (ev : event) : bool :=
  match ev with
  | Insert _ _ _ _ _ => true
  | _ => false
  end.

Definition is_error_log (ev : event) : bool :=
  match ev with
  | Log ERROR _ => true
  | _ => false
  end.

(** The paths handed to [to_csv], newest first. *)
Definition written (tr : list event) : list string :=
  omap (fun ev => match ev with ToCsv p => Some p | _ => None end) tr.

(** The calls made to the store, oldest first. *)
Definition store_history (tr : list event) : list event :=
  rev (List.filter is_store_event tr).

Definition opened (tr : list event) : list conn :=
  omap (fun ev => match ev with Connect (Some c) => Some c | _ => None end)
       (store_history tr).

Definition closed (tr : list event) : list conn :=
  omap (fun ev => match ev with Close c => Some c | _ => None end)
       (store_history tr).

(** A computation that makes no call to the store and leaves [self] alone. *)
Definition store_silent {A} (m : Py A) : Prop :=
  forall s,
    self (m s).2 = self s /\
    handles (m s).2 = handles s /\
    List.filter is_store_event (trace (m s).2) = List.filter is_store_event (trace s).

(** A computation that returns normally whatever the state. *)
Definition never_raises {A} (m : Py A) : Prop :=
  forall s, exists a, (m s).1 = Ok a.

(** The specification's reading of a run's trace: exactly one connection
    is opened, and it is the one that is closed. *)
Definition one_connection_opened_and_released (tr : list event) : Prop :=
  exists c, opened tr = [c] /\ closed tr = [c].

(** The specification's reading of [bonus] and [tax]: the bonus of row [i]
    is the rounding of basic salary times the bonus percentage, divided by
    100, and the tax that of basic salary times the tax percentage, divided
    by 100. *)
Definition bonus_and_tax_as_specified (df : DataFrame) (i : nat) : Prop :=
  exists basic bonus_pct tax_pct,
    cell df "basic_salary" i = Some (VFloat basic) /\
    cell df "bonus_percentage" i = Some (VFloat bonus_pct) /\
    cell df "tax_percentage" i = Some (VFloat tax_pct) /\
    cell df "bonus" i = Some (VFloat (Float64.round2 (basic * bonus_pct / 100))) /\
    cell df "tax" i = Some (VFloat (Float64.round2 (basic * tax_pct / 100))).

(** The specification's reading of [net_salary]: the net salary of row
    [i] is the rounding of basic salary plus the [bonus] cell minus the [tax]
    cell of that row, both already rounded. *)
Definition net_from_rounded_fields (df : DataFrame) (i : nat) : Prop :=
  exists basic bonus tax,
    cell df "basic_salary" i = Some (VFloat basic) /\
    cell df "bonus" i = Some (VFloat bonus) /\
    cell df "tax" i = Some (VFloat tax) /\
    cell df "net_salary" i = Some (VFloat (Float64.round2 (basic + bonus - tax))).

(** The columns the summary adds up. *)
Definition summary_columns : list string :=
  [ "basic_salary"; "bonus"; "tax"; "net_salary" ].

(** A table without rows: an empty index and every column empty, whatever
    the dtypes. *)
Definition no_rows (df : DataFrame) : bool :=
  Nat.eqb (index_len df) 0
  && forallb (fun ca => Nat.eqb (series_len ca.2) 0) (columns df).

Definition has_column (df : DataFrame) (c : string) : bool :=
  match lookup_col c (columns df) with
  | Some _ => true
  | None => false
  end.

(** The specification's reading of the average of an empty table: the
    summary reports a fallback value, the text N/A or a number such as 0.00
    printed as the sums are. *)
Definition average_as_specified (E : environment) (tr : list event) : Prop :=
  Print "Average Net Salary: $N/A" ∈ tr \/
  exists v : float,
    is_nan v = false /\
    Print ("Average Net Salary: $" ++ format_money E v) ∈ tr.

(** What every run of [main] prints before it first calls the store,
    newest first. *)
Definition banner : list event :=
  [ Print (nl ++ "1. Connecting to MySQL database...");
    Print (str_repeat "=" 60);
    Print "EMPLOYEE SALARY MANAGEMENT SYSTEM";
    Print (str_repeat "=" 60) ].

(** ** A concrete world, for instances of the statements *)

(** A decimal literal stands for the nearest binary64, as it does in Python. *)

Definition alex : employee := mkEmployee 7 "Alex Johnson" 62000 14 19.
Definition odd_one : employee := mkEmployee 8 "Out Of Range" (-1000) 150 (-5).
Definition cents : employee := mkEmployee 9 "Cents" 45001.37 13.33 19.5.
Definition tie : employee := mkEmployee 10 "Tie" 1004.9 15 19.

Definition demo_now (k : nat) : string := "2024-01-31 09:00:0" ++ pretty k.

(** A store that answers with [rows] and a file system that accepts every
    write; the three formatters are stand-ins, right on the values the
    instances below print (14.0, 19.0, 0.0 and NaN). *)
Definition demo_env (rows : list employee) : environment :=
  mkEnv (Ok tt) (Ok rows) (Ok 11%Z)
        (fun _ => Ok tt) (fun _ => Ok tt)
        demo_now
        (fun x => if (x =? 14)%float then "14.0" else "19.0")
        (fun x => if is_nan x then "nan" else "0.00")
        (fun _ => "").

(** A store that refuses the connection, and one that accepts it and then
    fails the query. *)
Definition unreachable_env : environment :=
  mkEnv (Raise (Exn MySQLError "Can't connect to MySQL server")) (Ok []) (Ok 0%Z)
        (fun _ => Ok tt) (fun _ => Ok tt)
        demo_now (fun _ => "") (fun _ => "") (fun _ => "").

Definition query_fails_env : environment :=
  mkEnv (Ok tt) (Raise (Exn MySQLError "Lost connection to MySQL server")) (Ok 0%Z)
        (fun _ => Ok tt) (fun _ => Ok tt)
        demo_now (fun _ => "") (fun _ => "") (fun _ => "").

Definition blank : state :=
  mkState (mkSelf "" "" "" "" None None) [] ∅ ∅ [] 0 0.

(** A state in which [df] has been fetched. *)
Definition holding (df : DataFrame) : state :=
  mkState (mkSelf "localhost" "root" "your_password" "employee_salary_management"
                  (Some 0) (Some 0))
          [df] ∅ ∅ [] 0 1.

(** The derived table without rows: what an empty answer of the store
    leaves, every column of dtype object. *)
Definition empty_derived_frame : DataFrame :=
  mkDataFrame 0
    [ ("employee_id", SObj []);
      ("name", SObj []);
      ("basic_salary", SObj []);
      ("bonus_percentage", SObj []);
      ("tax_percentage", SObj []);
      ("bonus", SObj []);
      ("tax", SObj []);
      ("net_salary", SObj []) ].

(** ** More worlds and tables *)

(** The row [iterrows] yields for an employee of a table as fetched, before
    the derivation step. *)
Definition raw_row (r : employee) : Row :=
  [ ("employee_id", VInt (employee_id r));
    ("name", VStr (name r));
    ("basic_salary", VFloat (basic_salary r));
    ("bonus_percentage", VFloat (bonus_percentage r));
    ("tax_percentage", VFloat (tax_percentage r)) ].

(** A world given by its five outcomes, with the clock and the formatters of
    [demo_env]. *)
Definition world (c : result unit) (q : result (list employee)) (ins : result Z)
    (mk csv : string -> result unit) : environment :=
  mkEnv c q ins mk csv demo_now
        (str_float (demo_env [])) (format_money (demo_env [])) (to_string (demo_env [])).

(** A file system that refuses one path. *)
Definition refusing (bad : string) (p : string) : result unit :=
  if String.eqb p bad then Raise (Exn OSError "Permission denied") else Ok tt.

Definition accepting (p : string) : result unit := Ok tt.

(** A state in which nothing has been fetched and no connection is open. *)
Definition idle : state :=
  mkState salary_system [] ∅ ∅ [] 0 0.

(** A table with a salary and a bonus rate but no tax rate. *)
Definition no_tax_rate : DataFrame :=
  mkDataFrame 1
    [ ("employee_id", SInt [9%Z]);
      ("basic_salary", SFloat [45001.37%float]);
      ("bonus_percentage", SFloat [13.33%float]) ].

(** The table the aggregate export writes: the table exported, stamped. *)
Definition stamped (df : DataFrame) (stamp : string) : DataFrame :=
  setitem_scalar df "report_generated" stamp.

(** A file system that refuses every path. *)
Definition rejecting (p : string) : result unit :=
  Raise (Exn OSError "Read-only file system").

(** What [main] prints and logs once the insert has been attempted, up to
    the release of connection [c], newest first. *)
Definition closing (E : environment) (c : conn) : list event :=
  [ Log INFO "Database connection closed";
    Close c;
    Print (str_repeat "=" 60);
    Print "SYSTEM EXECUTION COMPLETED SUCCESSFULLY!";
    Print (nl ++ str_repeat "=" 60) ].

(** * Properties *)

Open Scope list_scope.

(** ** Rounding, on a few numbers *)

Example rint_ties_to_even :
  Float64.rint 0.5 = 0%float /\ Float64.rint 1.5 = 2%float /\
  Float64.rint 2.5 = 2%float /\ Float64.rint (-2.5) = (-2)%float /\
  Float64.rint (-0.2) = (-0)%float /\ Float64.rint nan = nan.
Proof. repeat split; reflexivity. Qed.

Example round2_on_cents :
  Float64.round2 8680.004 = 8680%float /\
  Float64.round2 0.125 = 0.12%float /\
  Float64.round2 42224.785471 = 42224.79%float /\
  Float64.round2 (-2550) = (-2550)%float.
Proof. repeat split; reflexivity. Qed.

(** For the numbers of the specification's example the way the product is
    associated makes no difference. *)
Example alex_bonus_either_way :
  Float64.round2 (62000 * (14 / 100)) = 8680%float /\
  Float64.round2 (62000 * 14 / 100) = 8680%float /\
  Float64.round2 (62000 * (19 / 100)) = 11780%float /\
  Float64.round2 (62000 * 19 / 100) = 11780%float.
Proof. repeat split; reflexivity. Qed.

Example mean_of_nothing_and_something :
  Float64.nanmean [] = nan /\ Float64.nanmean [58900; 42225; nan]%float = 50562.5%float.
Proof. split; reflexivity. Qed.

(** ** Running the monad one call at a time *)

Lemma df_getitem_run l c s df :
  heap s !! l = Some df -> df_getitem l c s = (getitem df c, s).
Proof. intros H. unfold df_getitem, bind, deref, lift. by rewrite H. Qed.

Lemma df_setitem_run l c v s df :
  heap s !! l = Some df ->
  df_setitem l c v s = (Ok tt, set_heap (<[l := setitem df c v]> (heap s)) s).
Proof. intros H. unfold df_setitem, update, bind, deref. by rewrite H. Qed.

Lemma deref_run l s df : heap s !! l = Some df -> deref l s = (Ok df, s).
Proof. intros H. unfold deref. by rewrite H. Qed.

Lemma heap_insert_lookup (h : list DataFrame) l x df :
  h !! l = Some df -> <[l := x]> h !! l = Some x.
Proof. intros H. apply list_lookup_insert_eq. by eapply lookup_lt_Some. Qed.

Ltac heap_lookup :=
  cbn [heap set_heap add_event];
  first [ eassumption | eapply heap_insert_lookup; eassumption ].

Ltac py_simpl :=
  cbv [set_heap set_self set_files set_dirs add_event tick set_handles
       setitem getitem series_mul series_add series_sub series_binop
       series_truediv_scalar series_round2 series_sum series_mean];
  cbn; rewrite ?list_insert_insert_eq.

Ltac py_frame_step :=
  first
    [ erewrite df_getitem_run by heap_lookup
    | erewrite df_setitem_run by heap_lookup
    | erewrite deref_run by heap_lookup ];
  py_simpl.

(** ** Lists *)

Lemma zip_with_fmap {A B C D} (f : B -> C -> D) (g : A -> B) (h : A -> C) (l : list A) :
  zip_with f (g <$> l) (h <$> l) = (fun a => f (g a) (h a)) <$> l.
Proof. induction l as [|a l IH]; cbn; [done|]. by rewrite IH. Qed.

Lemma replicate_fmap {A B} (b : B) (l : list A) :
  replicate (length l) b = (fun _ => b) <$> l.
Proof. induction l as [|a l IH]; cbn; [done|]. by rewrite IH. Qed.

Lemma omap_fmap_S {A} (f : nat -> option A) (l : list nat) :
  omap f (S <$> l) = omap (fun i => f (S i)) l.
Proof.
  induction l as [|i l IH]; cbn; [done|].
  rewrite IH. reflexivity.
Qed.

(** Reading a list position by position gives the list back. *)
Lemma omap_seq_lookup {A B} (g : A -> B) (l : list A) :
  omap (fun i => g <$> l !! i) (seq 0 (length l)) = g <$> l.
Proof.
  induction l as [|a l IH]; [done|].
  cbn [length seq]. rewrite <- fmap_S_seq. cbn [omap list_omap].
  rewrite omap_fmap_S. cbn. f_equal. exact IH.
Qed.

Lemma omap_ext_seq {A} (f g : nat -> option A) (l : list nat) :
  (forall i, f i = g i) -> omap f l = omap g l.
Proof. intros H. induction l as [|i l IH]; cbn; [done|]. by rewrite H, IH. Qed.

(** A frame whose every position reads as [g] of the corresponding row
    iterates as the rows under [g]. *)
Lemma iterrows_rows {A} (cols : list (string * Series)) (rows : list A) (g : A -> Row) :
  (forall i, row_at (mkDataFrame (length rows) cols) i = g <$> rows !! i) ->
  iterrows (mkDataFrame (length rows) cols) = g <$> rows.
Proof.
  intros H. unfold iterrows. cbn [index_len].
  rewrite (omap_ext_seq _ _ _ H). apply omap_seq_lookup.
Qed.

Lemma iterrows_derived rows : iterrows (derived_frame rows) = derived_row <$> rows.
Proof.
  apply iterrows_rows. intros i. unfold row_at. cbn.
  rewrite !list_lookup_fmap. by destruct (rows !! i).
Qed.

Lemma cell_derived rows c i :
  cell (derived_frame rows) c i = r ← rows !! i; lookup_cell c (derived_row r).
Proof.
  unfold cell, derived_frame, derived_row. cbn [columns lookup_col lookup_cell].
  repeat (destruct (String.eqb _ c);
          [ cbn [mbind option_bind series_get]; rewrite !list_lookup_fmap;
            by destruct (rows !! i) | ]).
  cbn [mbind option_bind]. by destruct (rows !! i).
Qed.

(** ** The derivation step on a fetched table *)

(** On the table [pd.read_sql] built, the step leaves [derived_frame] at the
    same location and returns that location. *)
Lemma calculate_on_fetched s l rows :
  df_employees (self s) = Some l ->
  heap s !! l = Some (read_sql_frame rows) ->
  calculate_salary_components s =
    (Ok (Some l),
     add_event (Log INFO "Salary components calculated successfully")
       (set_heap (<[l := derived_frame rows]> (heap s)) s)).
Proof.
  intros Hdf Hl. destruct s as [o h fs ds tr ck hd]; cbn in *.
  unfold calculate_salary_components.
  cbv [bind try_except get_self]; cbn. rewrite Hdf.
  unfold read_sql_frame in Hl.
  repeat py_frame_step.
  repeat first [ rewrite <- list_fmap_compose | rewrite zip_with_fmap ].
  reflexivity.
Qed.

(** On the table a first pass left, a second pass leaves the same table. *)
Lemma calculate_on_derived s l rows :
  df_employees (self s) = Some l ->
  heap s !! l = Some (derived_frame rows) ->
  calculate_salary_components s =
    (Ok (Some l),
     add_event (Log INFO "Salary components calculated successfully")
       (set_heap (<[l := derived_frame rows]> (heap s)) s)).
Proof.
  intros Hdf Hl. destruct s as [o h fs ds tr ck hd]; cbn in *.
  unfold calculate_salary_components.
  cbv [bind try_except get_self]; cbn. rewrite Hdf.
  unfold derived_frame in Hl.
  repeat py_frame_step.
  repeat first [ rewrite <- list_fmap_compose | rewrite zip_with_fmap ].
  reflexivity.
Qed.

Lemma calculate_absent s :
  df_employees (self s) = None ->
  calculate_salary_components s =
    (Ok None,
     add_event (Log ERROR "No employee data available. Please fetch data first.") s).
Proof.
  intros Hdf. unfold calculate_salary_components.
  cbv [bind get_self]. rewrite Hdf. reflexivity.
Qed.

(** From an equation between two float cells to one between the floats. *)
Ltac cell_float H :=
  apply (f_equal (fun o => match o with Some (VFloat x) => x | _ => 0%float end)) in H;
  cbv beta iota in H.

(** Two binary64 numbers that compare different are different. *)
Ltac float_differ H :=
  match type of H with
  | ?x = ?y =>
      apply (f_equal (fun z => PrimFloat.eqb z x)) in H;
      vm_compute in H; discriminate H
  end.



(** C2, as the code has it: the [net_salary] cell is the rounding of basic
    salary plus the bonus minus the tax as they stand before their own
    rounding, that is round(basic + basic * (bonus% / 100) - basic * (tax% / 100), 2). *)
Theorem derived_net_salary (s : state) (l : loc) (rows : list employee)
    (i : nat) (r : employee) :
  df_employees (self s) = Some l ->
  heap s !! l = Some (read_sql_frame rows) ->
  rows !! i = Some r ->
  exists df,
    heap (calculate_salary_components s).2 !! l = Some df /\
    cell df "net_salary" i =
      Some (VFloat (Float64.round2
                      (basic_salary r + basic_salary r * (bonus_percentage r / 100)
                       - basic_salary r * (tax_percentage r / 100)))).
Proof.
  intros Hdf Hl Hr. rewrite (calculate_on_fetched s l rows Hdf Hl).
  exists (derived_frame rows).
  split; [cbn; by eapply heap_insert_lookup|].
  rewrite cell_derived, Hr. reflexivity.
Qed.

(** The example of the specification again: its net salary is 58900.00. *)
Lemma alex_net_salary :
  exists df,
    heap (calculate_salary_components (holding (read_sql_frame [alex]))).2 !! 0 = Some df /\
    cell df "net_salary" 0 = Some (VFloat 58900).
Proof.
  exact (derived_net_salary (holding (read_sql_frame [alex])) 0 [alex] 0 alex
           eq_refl eq_refl eq_refl).
Defined.

(** C2, as stated, fails: for basic salary 45001.37 at 13.33% and 19.5% the
    cells are bonus 5998.68, tax 8775.27 and net salary 42224.79, while
    round(45001.37 + 5998.68 - 8775.27, 2) is 42224.78. *)
Lemma cents_net_not_from_rounded_fields :
  let run := calculate_salary_components (holding (read_sql_frame [cents])) in
  run.1 = Ok (Some 0) /\
  exists df,
    heap run.2 !! 0 = Some df /\
    cell df "basic_salary" 0 = Some (VFloat 45001.37) /\
    cell df "bonus" 0 = Some (VFloat 5998.68) /\
    cell df "tax" 0 = Some (VFloat 8775.27) /\
    cell df "net_salary" 0 = Some (VFloat 42224.79) /\
    Float64.round2 (45001.37 + 5998.68 - 8775.27) = 42224.78%float /\
    ~ net_from_rounded_fields df 0.
Proof.
  cbv zeta. split; [reflexivity|].
  exists (derived_frame [cents]).
  repeat split; try reflexivity.
  intros (b & bo & t & Hb & Hbo & Ht & Hn).
  cell_float Hb. cell_float Hbo. cell_float Ht. cell_float Hn.
  subst b bo t. float_differ Hn.
Qed.

(** C3: the derivation step returns its error result exactly when no table
    is held; on every table the program can hold, fetched or already derived,
    whatever the signs and sizes of its numbers, it returns the table, derived
    by the same formulas, and logs no error. *)
Theorem derivation_fails_iff_absent (s : state) :
  (forall l, df_employees (self s) = Some l ->
             exists rows, heap s !! l = Some (read_sql_frame rows) \/
                          heap s !! l = Some (derived_frame rows)) ->
  ((calculate_salary_components s).1 = Ok None <-> df_employees (self s) = None) /\
  (forall l rows,
      df_employees (self s) = Some l ->
      heap s !! l = Some (read_sql_frame rows) \/
      heap s !! l = Some (derived_frame rows) ->
      (calculate_salary_components s).1 = Ok (Some l) /\
      heap (calculate_salary_components s).2 !! l = Some (derived_frame rows) /\
      iterrows (derived_frame rows) = derived_row <$> rows /\
      trace (calculate_salary_components s).2 =
        Log INFO "Salary components calculated successfully" :: trace s).
Proof.
  assert (Hrun : forall l rows,
      df_employees (self s) = Some l ->
      heap s !! l = Some (read_sql_frame rows) \/
      heap s !! l = Some (derived_frame rows) ->
      calculate_salary_components s =
        (Ok (Some l),
         add_event (Log INFO "Salary components calculated successfully")
           (set_heap (<[l := derived_frame rows]> (heap s)) s))).
  { intros l rows Hdf [Hl|Hl];
      [ by apply calculate_on_fetched | by apply calculate_on_derived ]. }
  intros Hwf. split.
  - destruct (df_employees (self s)) as [l|] eqn:Hdf.
    + destruct (Hwf l eq_refl) as [rows Hl].
      rewrite (Hrun l rows eq_refl Hl). cbn. split; discriminate.
    + rewrite (calculate_absent s Hdf). done.
  - intros l rows Hdf Hl. rewrite (Hrun l rows Hdf Hl). cbn.
    repeat split.
    + destruct Hl as [Hl|Hl]; by eapply heap_insert_lookup.
    + apply iterrows_derived.
Qed.

(** A negative salary with a bonus rate of 150% and a tax rate of -5% goes
    through: bonus -1500.00, tax 50.00, net salary -2550.00. *)
Lemma odd_one_is_derived :
  let s := holding (read_sql_frame [odd_one]) in
  ((calculate_salary_components s).1 = Ok None <-> df_employees (self s) = None) /\
  (calculate_salary_components s).1 = Ok (Some 0) /\
  heap (calculate_salary_components s).2 !! 0 = Some (derived_frame [odd_one]) /\
  iterrows (derived_frame [odd_one]) =
    [ [ ("employee_id", VInt 8); ("name", VStr "Out Of Range");
        ("basic_salary", VFloat (-1000)); ("bonus_percentage", VFloat 150);
        ("tax_percentage", VFloat (-5)); ("bonus", VFloat (-1500));
        ("tax", VFloat 50); ("net_salary", VFloat (-2550)) ] ] /\
  trace (calculate_salary_components s).2 =
    [ Log INFO "Salary components calculated successfully" ].
Proof.
  pose proof (derivation_fails_iff_absent (holding (read_sql_frame [odd_one]))) as H.
  destruct H as [Hiff Hok].
  - intros l Hl. injection Hl as <-. exists [odd_one]. left. reflexivity.
  - destruct (Hok 0 [odd_one] eq_refl (or_introl eq_refl)) as (H1 & H2 & H3 & H4).
    cbv zeta. repeat split; try assumption; try apply Hiff.
Defined.

(** C9: on a fetched table, a second run of the derivation step returns
    what the first returned and leaves every table as the first left it. *)
Theorem derivation_idempotent (s : state) (l : loc) (rows : list employee) :
  df_employees (self s) = Some l ->
  heap s !! l = Some (read_sql_frame rows) ->
  let once := calculate_salary_components s in
  let twice := calculate_salary_components once.2 in
  twice.1 = once.1 /\
  heap twice.2 = heap once.2 /\
  self twice.2 = self once.2 /\
  heap twice.2 !! l = Some (derived_frame rows).
Proof.
  intros Hdf Hl once twice. subst twice once.
  rewrite (calculate_on_fetched s l rows Hdf Hl).
  cbn [snd fst].
  erewrite (calculate_on_derived _ l rows).
  - cbn. rewrite list_insert_insert_eq. repeat split; try reflexivity.
    by eapply heap_insert_lookup.
  - exact Hdf.
  - cbn. by eapply heap_insert_lookup.
Qed.

Lemma derivation_idempotent_alex :
  let once := calculate_salary_components (holding (read_sql_frame [alex; cents])) in
  let twice := calculate_salary_components once.2 in
  twice.1 = once.1 /\
  heap twice.2 = heap once.2 /\
  self twice.2 = self once.2 /\
  heap twice.2 !! 0 = Some (derived_frame [alex; cents]).
Proof.
  exact (derivation_idempotent (holding (read_sql_frame [alex; cents])) 0 [alex; cents]
           eq_refl eq_refl).
Defined.

(** ** The reporting step *)

(** The summary of a derived table, line by line. *)
Lemma display_on_derived (E : environment) (s : state) (l : loc) (rows : list employee) :
  df_employees (self s) = Some l ->
  heap s !! l = Some (derived_frame rows) ->
  exists lines,
    display_salary_summary E s =
      (Ok tt,
       mkState (self s) (heap s) (files s) (dirs s) (lines ++ trace s)
               (clock s) (handles s)) /\
    List.filter is_store_event lines = [] /\
    written lines = [].
Proof.
  intros Hdf Hl. destruct s as [o h fs ds tr ck hd]; cbn in *.
  unfold display_salary_summary.
  cbv [bind get_self print emit]; cbn. rewrite Hdf.
  unfold derived_frame in Hl.
  repeat py_frame_step.
  eexists (_ :: _ :: _ :: _ :: _ :: _ :: _ :: _ :: _ :: _ :: _ :: _ :: [_]).
  split; [reflexivity|]. split; reflexivity.
Qed.



(** ** The aggregate export *)

Lemma heap_alloc_lookup (h : list DataFrame) df : (h ++ [df]) !! length h = Some df.
Proof. by apply list_lookup_middle. Qed.

Lemma heap_alloc_insert (h : list DataFrame) df x :
  <[length h := x]> (h ++ [df]) = h ++ [x].
Proof.
  rewrite insert_app_r_alt by lia. by rewrite Nat.sub_diag.
Qed.

(** The export, call by call: the copy is a new object, the stamp goes to
    the copy, and the copy is what is written. *)
Lemma export_run (E : environment) (filename : string) (s : state) (l : loc) df :
  df_employees (self s) = Some l ->
  heap s !! l = Some df ->
  export_complete_report E filename s =
    let out := setitem_scalar df "report_generated" (now E (clock s)) in
    match to_csv_outcome E filename with
    | Ok _ =>
        (Ok true,
         mkState (self s) (heap s ++ [out]) (<[filename := out]> (files s)) (dirs s)
           (Log INFO ("Complete salary report exported to: " +:+ filename)
              :: ToCsv filename :: trace s)
           (S (clock s)) (handles s))
    | Raise e =>
        (Ok false,
         mkState (self s) (heap s ++ [out]) (files s) (dirs s)
           (Log ERROR ("Error exporting complete report: " +:+ exn_msg e)
              :: ToCsv filename :: trace s)
           (S (clock s)) (handles s))
    end.
Proof.
  intros Hdf Hl. destruct s as [o h fs ds tr ck hd]; cbn in *.
  unfold export_complete_report.
  cbv [bind get_self try_except]; cbn. rewrite Hdf.
  erewrite deref_run by heap_lookup.
  cbv [alloc datetime_now update deref bind set_heap tick]; cbn.
  rewrite heap_alloc_lookup. cbn.
  rewrite heap_alloc_insert, heap_alloc_lookup.
  destruct (to_csv_outcome E filename) as [[]|e]; reflexivity.
Qed.

(** C10: the aggregate export leaves the table it exports as it was: the
    object [self.df_employees] refers to is the same and holds the same
    columns and values afterwards, as does every other object. *)
Theorem export_leaves_table (E : environment) (filename : string) (s : state)
    (l : loc) (df : DataFrame) :
  df_employees (self s) = Some l ->
  heap s !! l = Some df ->
  let s' := (export_complete_report E filename s).2 in
  self s' = self s /\
  heap s' !! l = Some df /\
  (forall l', l' < length (heap s) -> heap s' !! l' = heap s !! l').
Proof.
  intros Hdf Hl s'. subst s'. rewrite (export_run E filename s l df Hdf Hl).
  cbv zeta.
  assert (Hlt : l < length (heap s)) by (by eapply lookup_lt_Some).
  destruct (to_csv_outcome E filename) as [u|e]; cbn;
    (split; [reflexivity|]; split;
     [ by rewrite lookup_app_l | intros l' Hl'; by rewrite lookup_app_l ]).
Qed.

Lemma export_leaves_table_demo :
  let s := holding (derived_frame [alex; cents]) in
  let s' := (export_complete_report (demo_env [alex; cents]) "complete_salary_report.csv" s).2 in
  self s' = self s /\
  heap s' !! 0 = Some (derived_frame [alex; cents]) /\
  (forall l', l' < length (heap s) -> heap s' !! l' = heap s !! l').
Proof.
  exact (export_leaves_table (demo_env [alex; cents]) "complete_salary_report.csv"
           (holding (derived_frame [alex; cents])) 0 (derived_frame [alex; cents])
           eq_refl eq_refl).
Defined.

Lemma iterrows_report rows stamp :
  iterrows (setitem_scalar (derived_frame rows) "report_generated" stamp)
  = (fun r => report_row r stamp) <$> rows.
Proof.
  unfold setitem_scalar, setitem, derived_frame. cbn.
  apply iterrows_rows. intros i. unfold row_at. cbn.
  rewrite replicate_fmap, !list_lookup_fmap. by destruct (rows !! i).
Qed.

(** C5: the aggregate export of a derived table writes one file whose table
    has as many rows as there are records, row [i] being record [i]'s eight
    cells followed by the one [report_generated] stamp. *)
Theorem aggregate_export (E : environment) (filename : string) (s : state)
    (l : loc) (rows : list employee) :
  df_employees (self s) = Some l ->
  heap s !! l = Some (derived_frame rows) ->
  to_csv_outcome E filename = Ok tt ->
  let run := export_complete_report E filename s in
  run.1 = Ok true /\
  exists out,
    files run.2 !! filename = Some out /\
    (forall p, p <> filename -> files run.2 !! p = files s !! p) /\
    index_len out = length rows /\
    length (iterrows out) = length rows /\
    iterrows out = (fun r => report_row r (now E (clock s))) <$> rows /\
    column_names out = column_names (derived_frame rows) ++ ["report_generated"].
Proof.
  intros Hdf Hl Hw run. subst run.
  rewrite (export_run E filename s l _ Hdf Hl), Hw. cbv zeta. cbn [fst snd files].
  split; [reflexivity|].
  exists (setitem_scalar (derived_frame rows) "report_generated" (now E (clock s))).
  split; [apply lookup_insert_eq|].
  split; [intros p Hp; by apply lookup_insert_ne|].
  rewrite iterrows_report, length_fmap.
  repeat split; reflexivity.
Qed.

Lemma aggregate_export_demo :
  let E := demo_env [alex; cents] in
  let s := holding (derived_frame [alex; cents]) in
  let run := export_complete_report E "complete_salary_report.csv" s in
  run.1 = Ok true /\
  exists out,
    files run.2 !! "complete_salary_report.csv" = Some out /\
    (forall p, p <> "complete_salary_report.csv" -> files run.2 !! p = files s !! p) /\
    index_len out = 2 /\
    length (iterrows out) = 2 /\
    iterrows out = (fun r => report_row r "2024-01-31 09:00:00") <$> [alex; cents] /\
    column_names out =
      [ "employee_id"; "name"; "basic_salary"; "bonus_percentage"; "tax_percentage";
        "bonus"; "tax"; "net_salary"; "report_generated" ].
Proof.
  exact (aggregate_export (demo_env [alex; cents]) "complete_salary_report.csv"
           (holding (derived_frame [alex; cents])) 0 [alex; cents]
           eq_refl eq_refl eq_refl).
Defined.

(** ** The per-record export *)

Lemma list_ascii_of_string_app (a b : string) :
  String.list_ascii_of_string (a +:+ b) = String.list_ascii_of_string a ++ String.list_ascii_of_string b.
Proof. induction a as [|c a IH]; simpl; [done|]. f_equal. exact IH. Qed.

Lemma list_ascii_of_string_inj (a b : string) :
  String.list_ascii_of_string a = String.list_ascii_of_string b -> a = b.
Proof.
  intros H. rewrite <- (String.string_of_list_ascii_of_string a),
    <- (String.string_of_list_ascii_of_string b). by rewrite H.
Qed.

(** Strings that agree once the same suffix is appended are equal. *)
Lemma string_app_inj_r (a b t : string) : a +:+ t = b +:+ t -> a = b.
Proof.
  intros H. apply list_ascii_of_string_inj.
  apply (f_equal String.list_ascii_of_string) in H.
  rewrite !list_ascii_of_string_app in H. by apply app_inv_tail in H.
Qed.

Lemma slip_filename_inj (E : environment) (a b : Z) :
  slip_filename E (VInt a) = slip_filename E (VInt b) -> a = b.
Proof.
  unfold slip_filename, str_value. intros H.
  apply (String.app_inj "salary_slip_") in H.
  apply string_app_inj_r in H. by apply pretty_Z_inj in H.
Qed.

Lemma slip_filename_relative (E : environment) (id : Z) :
  String.prefix "/" (slip_filename E (VInt id)) = false.
Proof. reflexivity. Qed.

(** Different employee ids give different paths. *)
Lemma slip_path_inj (E : environment) (output_dir : string) (a b : Z) :
  slip_path E output_dir a = slip_path E output_dir b -> a = b.
Proof.
  unfold slip_path, path_join. rewrite !slip_filename_relative.
  destruct (String.eqb output_dir "").
  - apply slip_filename_inj.
  - destruct (String.eqb _ "/"); intros H; apply String.app_inj in H.
    + by apply slip_filename_inj in H.
    + apply (String.app_inj "/") in H. by apply slip_filename_inj in H.
Qed.

Lemma write_slip_run (E : environment) (output_dir : string) (r : employee) (s : state) :
  to_csv_outcome E (slip_path E output_dir (employee_id r)) = Ok tt ->
  write_slip E output_dir (derived_row r) s =
    (Ok tt,
     mkState (self s) (heap s)
       (<[slip_path E output_dir (employee_id r) := of_dict (slip_row E r (now E (clock s)))]>
          (files s))
       (dirs s)
       (Log INFO ("Generated salary slip: " +:+ slip_filename E (VInt (employee_id r)))
          :: ToCsv (slip_path E output_dir (employee_id r)) :: trace s)
       (S (clock s)) (handles s)).
Proof.
  intros Hw. unfold write_slip, to_csv, slip_path in *.
  cbv [bind lift datetime_now emit logger_info row_getitem derived_row
       lookup_cell String.eqb Ascii.eqb Bool.eqb add_event tick set_files].
  cbn [self heap files dirs trace clock handles].
  rewrite Hw. reflexivity.
Qed.

(** The loop over the rows of a derived table, when every write succeeds. *)
Lemma for_each_slips (E : environment) (output_dir : string) (rows : list employee)
    (s : state) :
  (forall r, r ∈ rows -> to_csv_outcome E (slip_path E output_dir (employee_id r)) = Ok tt) ->
  for_each (derived_row <$> rows) (write_slip E output_dir) s =
    (Ok tt,
     mkState (self s) (heap s)
       (slips_written E output_dir rows (clock s) (files s))
       (dirs s)
       (slip_events E output_dir rows ++ trace s)
       (clock s + length rows) (handles s)).
Proof.
  revert s. induction rows as [|r rows IH]; intros s Hw.
  - destruct s. cbn. by rewrite Nat.add_0_r.
  - cbn [fmap list_fmap for_each]. unfold bind.
    rewrite write_slip_run by (apply Hw; left).
    rewrite IH by (intros r' Hr'; apply Hw; by right).
    cbn. rewrite <- app_assoc. cbn. do 2 f_equal. lia.
Qed.

Lemma slips_written_other (E : environment) (output_dir : string)
    (rows : list employee) (k : nat) (fs : gmap string DataFrame) (p : string) :
  (forall r, r ∈ rows -> p <> slip_path E output_dir (employee_id r)) ->
  slips_written E output_dir rows k fs !! p = fs !! p.
Proof.
  revert k fs. induction rows as [|r rows IH]; intros k fs Hp; [done|].
  cbn. rewrite IH by (intros r' Hr'; apply Hp; by right).
  apply lookup_insert_ne. intros Heq. by apply (Hp r); [left|].
Qed.

Lemma slips_written_at (E : environment) (output_dir : string)
    (rows : list employee) (k : nat) (fs : gmap string DataFrame) (i : nat) (r : employee) :
  NoDup (employee_id <$> rows) ->
  rows !! i = Some r ->
  slips_written E output_dir rows k fs !! slip_path E output_dir (employee_id r)
  = Some (of_dict (slip_row E r (now E (k + i)))).
Proof.
  revert k fs i. induction rows as [|r0 rows IH]; intros k fs i Hnd Hi; [done|].
  cbn [fmap list_fmap] in Hnd. apply NoDup_cons in Hnd as [Hnotin Hnd].
  destruct i as [|i]; cbn in Hi.
  - injection Hi as ->. cbn. rewrite slips_written_other.
    + rewrite Nat.add_0_r. apply lookup_insert_eq.
    + intros r' Hr' Heq. apply slip_path_inj in Heq.
      apply Hnotin. rewrite Heq. by apply list_elem_of_fmap_2.
  - cbn. rewrite (IH (S k) _ i Hnd Hi).
    by replace (k + S i) with (S k + i) by lia.
Qed.

Lemma iterrows_of_dict (d : Row) : iterrows (of_dict d) = [d].
Proof.
  unfold iterrows, of_dict, row_at. cbn.
  assert (H : mapM (fun '(c, s) => (fun v => (c, v)) <$> series_get s 0)
                ((fun '(c, v) => (c, series_of_value v)) <$> d) = Some d).
  { induction d as [|[c v] d IH]; [done|].
    cbn [fmap list_fmap mapM]. rewrite IH. by destruct v. }
  by rewrite H.
Qed.

Lemma written_slip_events (E : environment) (output_dir : string)
    (rows : list employee) (tr : list event) :
  written (slip_events E output_dir rows ++ tr)
  = rev ((fun r => slip_path E output_dir (employee_id r)) <$> rows) ++ written tr.
Proof.
  revert tr. induction rows as [|r rows IH]; intros tr; [done|].
  cbn [slip_events fmap list_fmap rev]. rewrite <- !app_assoc, IH. reflexivity.
Qed.

(** The per-record export on a derived table, when the directory is there
    or can be made and every write succeeds. *)
Lemma generate_run (E : environment) (output_dir : string) (s : state) (l : loc)
    (rows : list employee) :
  df_employees (self s) = Some l ->
  heap s !! l = Some (derived_frame rows) ->
  (output_dir ∈ dirs s \/ makedirs_outcome E output_dir = Ok tt) ->
  (forall r, r ∈ rows -> to_csv_outcome E (slip_path E output_dir (employee_id r)) = Ok tt) ->
  exists ds made,
    generate_salary_slips E output_dir s =
      (Ok true,
       mkState (self s) (heap s)
         (slips_written E output_dir rows (clock s) (files s))
         ds
         (Log INFO ("All salary slips generated successfully in '" +:+ output_dir
                    +:+ "' directory")
            :: slip_events E output_dir rows ++ made ++ trace s)
         (clock s + length rows) (handles s)) /\
    written (made ++ trace s) = written (trace s).
Proof.
  intros Hdf Hl Hdir Hw. destruct s as [o h fs ds tr ck hd]; cbn in *.
  set (s0 := mkState o h fs ds tr ck hd).
  assert (Hex : os_path_exists output_dir s0
                = (Ok (bool_decide (output_dir ∈ ds)), s0)) by reflexivity.
  unfold generate_salary_slips.
  cbv [bind get_self try_except]. cbn [self]. rewrite Hdf, Hex. clear Hex.
  destruct (bool_decide (output_dir ∈ ds)) eqn:Hthere; subst s0; cbn.
  - erewrite deref_run by heap_lookup. rewrite iterrows_derived.
    rewrite for_each_slips by exact Hw. cbn.
    exists ds, []. split; reflexivity.
  - destruct Hdir as [Hin|Hmk]; [by apply bool_decide_eq_false in Hthere|].
    rewrite Hmk. cbn.
    erewrite deref_run by heap_lookup. rewrite iterrows_derived.
    rewrite for_each_slips by exact Hw. cbn.
    exists ({[output_dir]} ∪ ds),
      [Log INFO ("Created directory: " +:+ output_dir); MakeDirs output_dir].
    split; reflexivity.
Qed.

(** C4: when the directory is there or can be made and the writes go
    through, the per-record export of a derived table succeeds; the writes it
    makes are those of the records, one each, in order, at the path fixed by
    each record's employee id; different ids give different paths; no other
    path is written; and, the ids being distinct, the file of a record holds
    one row with the nine slip columns, the two percentages as text ending in
    '%', the last column the time of generation. *)
Theorem per_record_export (E : environment) (output_dir : string) (s : state)
    (l : loc) (rows : list employee) :
  df_employees (self s) = Some l ->
  heap s !! l = Some (derived_frame rows) ->
  (output_dir ∈ dirs s \/ makedirs_outcome E output_dir = Ok tt) ->
  (forall r, r ∈ rows -> to_csv_outcome E (slip_path E output_dir (employee_id r)) = Ok tt) ->
  let run := generate_salary_slips E output_dir s in
  run.1 = Ok true /\
  (NoDup (employee_id <$> rows) ->
   forall i r, rows !! i = Some r ->
     exists slip,
       files run.2 !! slip_path E output_dir (employee_id r) = Some slip /\
       index_len slip = 1 /\
       column_names slip = slip_columns /\
       iterrows slip =
         [ [ ("Employee ID", VInt (employee_id r));
             ("Name", VStr (name r));
             ("Basic Salary", VFloat (basic_salary r));
             ("Bonus Percentage", VStr (str_float E (bonus_percentage r) +:+ "%"));
             ("Bonus Amount",
              VFloat (Float64.round2 (basic_salary r * (bonus_percentage r / 100))));
             ("Tax Percentage", VStr (str_float E (tax_percentage r) +:+ "%"));
             ("Tax Amount",
              VFloat (Float64.round2 (basic_salary r * (tax_percentage r / 100))));
             ("Net Salary",
              VFloat (Float64.round2
                        (basic_salary r + basic_salary r * (bonus_percentage r / 100)
                         - basic_salary r * (tax_percentage r / 100))));
             ("Generated Date", VStr (now E (clock s + i))) ] ]) /\
  (forall a b, slip_path E output_dir a = slip_path E output_dir b -> a = b) /\
  written (trace run.2)
    = rev ((fun r => slip_path E output_dir (employee_id r)) <$> rows)
      ++ written (trace s) /\
  (forall p, (forall r, r ∈ rows -> p <> slip_path E output_dir (employee_id r)) ->
             files run.2 !! p = files s !! p).
Proof.
  intros Hdf Hl Hdir Hw run. subst run.
  destruct (generate_run E output_dir s l rows Hdf Hl Hdir Hw) as (ds & made & -> & Hmade).
  cbn [fst snd files trace]. split; [reflexivity|]. split; [|split; [|split]].
  - intros Hnd i r Hr. exists (of_dict (slip_row E r (now E (clock s + i)))).
    split; [by apply slips_written_at|].
    split; [reflexivity|]. split; [reflexivity|]. apply iterrows_of_dict.
  - apply slip_path_inj.
  - change (Log INFO ?m :: ?t) with ([Log INFO m] ++ t).
    unfold written at 1. rewrite omap_app. cbn [omap list_omap app].
    fold (written (slip_events E output_dir rows ++ made ++ trace s)).
    by rewrite written_slip_events, Hmade.
  - intros p Hp. by apply slips_written_other.
Qed.

Lemma per_record_export_demo :
  let E := demo_env [alex; cents] in
  let s := holding (derived_frame [alex; cents]) in
  let run := generate_salary_slips E "salary_slips" s in
  run.1 = Ok true /\
  (forall i r, [alex; cents] !! i = Some r ->
     exists slip,
       files run.2 !! slip_path E "salary_slips" (employee_id r) = Some slip /\
       index_len slip = 1 /\
       column_names slip = slip_columns /\
       iterrows slip =
         [ [ ("Employee ID", VInt (employee_id r));
             ("Name", VStr (name r));
             ("Basic Salary", VFloat (basic_salary r));
             ("Bonus Percentage", VStr (str_float E (bonus_percentage r) +:+ "%"));
             ("Bonus Amount",
              VFloat (Float64.round2 (basic_salary r * (bonus_percentage r / 100))));
             ("Tax Percentage", VStr (str_float E (tax_percentage r) +:+ "%"));
             ("Tax Amount",
              VFloat (Float64.round2 (basic_salary r * (tax_percentage r / 100))));
             ("Net Salary",
              VFloat (Float64.round2
                        (basic_salary r + basic_salary r * (bonus_percentage r / 100)
                         - basic_salary r * (tax_percentage r / 100))));
             ("Generated Date", VStr (now E (clock s + i))) ] ]) /\
  (forall a b, slip_path E "salary_slips" a = slip_path E "salary_slips" b -> a = b) /\
  written (trace run.2)
    = [ "salary_slips/salary_slip_9.csv"; "salary_slips/salary_slip_7.csv" ] /\
  (forall p, (forall r, r ∈ [alex; cents] -> p <> slip_path E "salary_slips" (employee_id r)) ->
             files run.2 !! p = files s !! p).
Proof.
  destruct (per_record_export (demo_env [alex; cents]) "salary_slips"
              (holding (derived_frame [alex; cents])) 0 [alex; cents]
              eq_refl eq_refl (or_intror eq_refl) (fun _ _ => eq_refl))
    as (Hok & Hfiles & Hinj & Hwritten & Hother).
  cbv zeta. repeat split; try assumption.
  apply Hfiles. apply NoDup_cons. split; [|apply NoDup_singleton].
  intros H. apply list_elem_of_singleton in H. discriminate H.
Defined.

(** The slip of the specification's example, as written. *)
Example alex_slip :
  files (generate_salary_slips (demo_env [alex]) "salary_slips"
           (holding (derived_frame [alex]))).2
    !! "salary_slips/salary_slip_7.csv"
  = Some (of_dict
            [ ("Employee ID", VInt 7);
              ("Name", VStr "Alex Johnson");
              ("Basic Salary", VFloat 62000);
              ("Bonus Percentage", VStr "14.0%");
              ("Bonus Amount", VFloat 8680);
              ("Tax Percentage", VStr "19.0%");
              ("Tax Amount", VFloat 11780);
              ("Net Salary", VFloat 58900);
              ("Generated Date", VStr "2024-01-31 09:00:00") ]).
Proof. vm_compute. reflexivity. Qed.

(** ** Computations that leave the store alone *)

Lemma silent_ret {A} (a : A) : store_silent (ret a).
Proof. intros s. done. Qed.

Lemma silent_lift {A} (r : result A) : store_silent (lift r).
Proof. intros s. done. Qed.

Lemma silent_emit (ev : event) : is_store_event ev = false -> store_silent (emit ev).
Proof. intros H s. cbn. by rewrite H. Qed.

Lemma silent_bind {A B} (m : Py A) (k : A -> Py B) :
  store_silent m -> (forall a, store_silent (k a)) -> store_silent (bind m k).
Proof.
  intros Hm Hk s. unfold bind. specialize (Hm s).
  destruct (m s) as [[a|e] s']; cbn in Hm; [|exact Hm].
  destruct Hm as (H1 & H2 & H3). destruct (Hk a s') as (K1 & K2 & K3).
  rewrite K1, K2, K3. done.
Qed.

Lemma silent_try_except {A} (m : Py A) (h : exn -> Py A) :
  store_silent m -> (forall e, store_silent (h e)) -> store_silent (try_except m h).
Proof.
  intros Hm Hh s. unfold try_except. specialize (Hm s).
  destruct (m s) as [[a|e] s']; cbn in Hm; [exact Hm|].
  destruct Hm as (H1 & H2 & H3). destruct (Hh e s') as (K1 & K2 & K3).
  rewrite K1, K2, K3. done.
Qed.

Lemma silent_for_each {A} (l : list A) (body : A -> Py unit) :
  (forall a, store_silent (body a)) -> store_silent (for_each l body).
Proof.
  intros Hb. induction l as [|a l IH]; cbn [for_each].
  - apply silent_ret.
  - apply silent_bind; [apply Hb | intros _; exact IH].
Qed.

Lemma silent_get_self : store_silent get_self.
Proof. intros s. done. Qed.

Lemma silent_deref (l : loc) : store_silent (deref l).
Proof. intros s. unfold deref. by destruct (heap s !! l). Qed.

Lemma silent_alloc (df : DataFrame) : store_silent (alloc df).
Proof. intros s. done. Qed.

Lemma silent_update (l : loc) (f : DataFrame -> DataFrame) : store_silent (update l f).
Proof.
  apply silent_bind; [apply silent_deref | intros df s; done].
Qed.

Lemma silent_datetime_now (E : environment) : store_silent (datetime_now E).
Proof. intros s. done. Qed.

Lemma silent_os_path_exists (d : string) : store_silent (os_path_exists d).
Proof. intros s. done. Qed.

Lemma silent_os_makedirs (E : environment) (d : string) : store_silent (os_makedirs E d).
Proof.
  unfold os_makedirs.
  apply silent_bind; [by apply silent_emit | intros _].
  apply silent_bind; [apply silent_lift | intros _ s; done].
Qed.

Lemma silent_to_csv (E : environment) (df : DataFrame) (path : string) :
  store_silent (to_csv E df path).
Proof.
  unfold to_csv.
  apply silent_bind; [by apply silent_emit | intros _].
  apply silent_bind; [apply silent_lift | intros _ s; done].
Qed.

Lemma silent_df_getitem (l : loc) (c : string) : store_silent (df_getitem l c).
Proof.
  apply silent_bind; [apply silent_deref | intros df; apply silent_lift].
Qed.

Create HintDb silent.
#[local] Hint Resolve silent_ret silent_lift silent_get_self silent_deref silent_alloc
  silent_update silent_datetime_now silent_os_path_exists silent_os_makedirs
  silent_to_csv silent_df_getitem : silent.

Ltac silent_step :=
  match goal with
  | |- forall _, _ => intro
  | |- store_silent (bind _ _) => apply silent_bind
  | |- store_silent (try_except _ _) => apply silent_try_except
  | |- store_silent (for_each _ _) => apply silent_for_each
  | |- store_silent (emit _) => apply silent_emit; reflexivity
  | |- store_silent (print _) => apply silent_emit; reflexivity
  | |- store_silent (logger_info _) => apply silent_emit; reflexivity
  | |- store_silent (logger_error _) => apply silent_emit; reflexivity
  | |- store_silent (match ?x with _ => _ end) => destruct x
  | |- store_silent _ => solve [ auto with silent ]
  end.

Lemma silent_write_slip (E : environment) (output_dir : string) (employee : Row) :
  store_silent (write_slip E output_dir employee).
Proof. unfold write_slip. repeat silent_step. Qed.

Lemma silent_generate_salary_slips (E : environment) (output_dir : string) :
  store_silent (generate_salary_slips E output_dir).
Proof.
  unfold generate_salary_slips. repeat silent_step. apply silent_write_slip.
Qed.

Lemma silent_export_complete_report (E : environment) (filename : string) :
  store_silent (export_complete_report E filename).
Proof. unfold export_complete_report. repeat silent_step. Qed.

Lemma try_except_never_raises {A} (m : Py A) (h : exn -> Py A) :
  (forall e, never_raises (h e)) -> never_raises (try_except m h).
Proof.
  intros Hh s. unfold try_except.
  destruct (m s) as [[a|e] s']; [by exists a|]. apply Hh.
Qed.

Lemma generate_never_raises (E : environment) (output_dir : string) :
  never_raises (generate_salary_slips E output_dir).
Proof.
  intros s. unfold generate_salary_slips, bind at 1, get_self.
  destruct (df_employees (self s)); [|by exists false].
  apply try_except_never_raises. intros e s'. by exists false.
Qed.

Lemma export_never_raises (E : environment) (filename : string) :
  never_raises (export_complete_report E filename).
Proof.
  intros s. unfold export_complete_report, bind at 1, get_self.
  destruct (df_employees (self s)); [|by exists false].
  apply try_except_never_raises. intros e s'. by exists false.
Qed.

(** ** The calls to the store, one method at a time *)

Lemma connect_database_run (E : environment) (s : state) :
  connect_database E s =
    match connect_outcome E with
    | Ok _ =>
        (Ok true,
         mkState (with_connection (Some (handles s)) (self s)) (heap s) (files s) (dirs s)
           (Log INFO "Successfully connected to MySQL database"
              :: Connect (Some (handles s)) :: trace s)
           (clock s) (S (handles s)))
    | Raise e =>
        match exn_kind e with
        | MySQLError =>
            (Ok false,
             mkState (self s) (heap s) (files s) (dirs s)
               (Log ERROR ("Error connecting to MySQL database: " +:+ exn_msg e)
                  :: Connect None :: trace s)
               (clock s) (handles s))
        | _ =>
            (Raise e,
             mkState (self s) (heap s) (files s) (dirs s) (Connect None :: trace s)
               (clock s) (handles s))
        end
    end.
Proof.
  unfold connect_database, try_except, bind, mysql_connect.
  destruct (connect_outcome E) as [u|e]; [reflexivity|].
  by destruct (exn_kind e).
Qed.

Lemma fetch_employee_data_run (E : environment) (s : state) (c : conn) :
  connection (self s) = Some c ->
  fetch_employee_data E s =
    match read_sql_outcome E with
    | Ok rows =>
        (Ok (Some (length (heap s))),
         mkState (with_df (Some (length (heap s))) (self s))
           (heap s ++ [read_sql_frame rows]) (files s) (dirs s)
           (Log INFO ("Successfully fetched " +:+ pretty (length rows)
                      +:+ " employee records")
              :: ReadSql c :: trace s)
           (clock s) (handles s))
    | Raise e =>
        (Ok None,
         mkState (self s) (heap s) (files s) (dirs s)
           (Log ERROR ("Error fetching employee data: " +:+ exn_msg e)
              :: ReadSql c :: trace s)
           (clock s) (handles s))
    end.
Proof.
  intros Hc. unfold fetch_employee_data, bind at 1, get_self. rewrite Hc.
  unfold bind at 1, ret. cbn [negb].
  unfold try_except, bind at 1, get_self. rewrite Hc.
  unfold pd_read_sql, bind, emit, lift.
  destruct (read_sql_outcome E) as [rows|e]; reflexivity.
Qed.

Lemma add_new_employee_run (E : environment) (s : state) (c : conn)
    (who : string) (basic bonus tax : float) :
  connection (self s) = Some c ->
  exists r msg,
    add_new_employee E who basic bonus tax s =
      (Ok r,
       mkState (self s) (heap s) (files s) (dirs s)
         (Log msg.1 msg.2 :: Insert c who basic bonus tax :: trace s)
         (clock s) (handles s)).
Proof.
  intros Hc. unfold add_new_employee, bind at 1, get_self. rewrite Hc.
  unfold bind at 1, ret. cbn [negb].
  unfold try_except, bind at 1, get_self. rewrite Hc.
  unfold mysql_insert, bind, emit, lift.
  destruct (insert_outcome E) as [id|e].
  - by exists (Some id), (INFO, "New employee added successfully with ID: " +:+ pretty id).
  - by exists None, (ERROR, "Error adding new employee: " +:+ exn_msg e).
Qed.

Lemma close_connection_run (s : state) :
  close_connection s =
    match connection (self s) with
    | Some c =>
        (Ok tt,
         mkState (self s) (heap s) (files s) (dirs s)
           (Log INFO "Database connection closed" :: Close c :: trace s)
           (clock s) (handles s))
    | None => (Ok tt, s)
    end.
Proof.
  unfold close_connection, bind at 1, get_self.
  by destruct (connection (self s)).
Qed.

Lemma bind_emit {B} (ev : event) (k : unit -> Py B) (s : state) :
  bind (emit ev) k s = k tt (add_event ev s).
Proof. reflexivity. Qed.


(** ** Runs of [main] *)

Ltac state_simpl :=
  cbn [add_event set_self set_heap self heap files dirs trace clock handles
       negb fst snd connection df_employees with_connection with_df salary_system].

Lemma main_connect_fails (E : environment) (s : state) (e : exn) :
  connect_outcome E = Raise e ->
  main E s =
    (Ok tt,
     mkState salary_system (heap s) (files s) (dirs s)
       (match exn_kind e with
        | MySQLError =>
            [ Print "Failed to connect to database. Please check your credentials.";
              Log ERROR ("Error connecting to MySQL database: " +:+ exn_msg e) ]
        | _ => [ Log ERROR ("An error occurred during system execution: " +:+ exn_msg e) ]
        end ++ Connect None :: banner ++ trace s)
       (clock s) (handles s)).
Proof.
  intros Hc. unfold main, print. rewrite !bind_emit.
  unfold bind at 1. state_simpl.
  unfold try_finally, try_except, main_try, print. rewrite bind_emit.
  unfold bind at 1. rewrite connect_database_run, Hc. state_simpl.
  destruct (exn_kind e); reflexivity.
Qed.

Lemma main_query_fails (E : environment) (s : state) (e : exn) :
  connect_outcome E = Ok tt ->
  read_sql_outcome E = Raise e ->
  main E s =
    (Ok tt,
     mkState (with_connection (Some (handles s)) salary_system)
       (heap s) (files s) (dirs s)
       ([ Log INFO "Database connection closed";
          Close (handles s);
          Print "Failed to fetch employee data.";
          Log ERROR ("Error fetching employee data: " +:+ exn_msg e);
          ReadSql (handles s);
          Print (nl +:+ "2. Fetching employee data...");
          Log INFO "Successfully connected to MySQL database";
          Connect (Some (handles s)) ] ++ banner ++ trace s)
       (clock s) (S (handles s))).
Proof.
  intros Hc Hq. unfold main, print. rewrite !bind_emit.
  unfold bind at 1. state_simpl.
  unfold try_finally, try_except, main_try, print. rewrite bind_emit.
  unfold bind at 1. rewrite connect_database_run, Hc. state_simpl.
  rewrite bind_emit. unfold bind at 1.
  erewrite fetch_employee_data_run by reflexivity. rewrite Hq. state_simpl.
  reflexivity.
Qed.

Lemma bind_maybe_print {B} (b : bool) (line : string) (k : unit -> Py B) (s : state) :
  bind (if b then emit (Print line) else ret tt) k s
  = k tt (if b then add_event (Print line) s else s).
Proof. by destruct b. Qed.

Lemma main_full_run (E : environment) (s : state) (rows : list employee) :
  connect_outcome E = Ok tt ->
  read_sql_outcome E = Ok rows ->
  exists s',
    main E s = (Ok tt, s') /\
    List.filter is_store_event (trace s') =
      [ Close (handles s);
        Insert (handles s) "Alex Johnson" 62000 14 19;
        ReadSql (handles s);
        Connect (Some (handles s)) ] ++ List.filter is_store_event (trace s).
Proof.
  intros Hc Hq. unfold main, print. rewrite !bind_emit.
  unfold bind at 1. state_simpl.
  unfold try_finally, try_except, main_try, print. rewrite bind_emit.
  unfold bind at 1. rewrite connect_database_run, Hc. state_simpl.
  rewrite bind_emit. unfold bind at 1.
  erewrite fetch_employee_data_run by reflexivity. rewrite Hq. state_simpl.
  rewrite bind_emit. unfold bind at 1.
  erewrite calculate_on_fetched; [| reflexivity | state_simpl; apply heap_alloc_lookup ].
  state_simpl. rewrite heap_alloc_insert.
  rewrite bind_emit. unfold bind at 1. state_simpl.
  match goal with
  | |- context [display_salary_summary E ?S] =>
      destruct (display_on_derived E S (length (heap s)) rows eq_refl
                  (heap_alloc_lookup _ _)) as (lines & -> & Hlines & _)
  end.
  state_simpl. rewrite bind_emit. unfold bind at 1.
  match goal with
  | |- context [generate_salary_slips E ?d ?S] =>
      destruct (silent_generate_salary_slips E d S) as (G1 & G2 & G3);
      destruct (generate_never_raises E d S) as [b Hb];
      destruct (generate_salary_slips E d S) as [r1 S1]
  end.
  cbn [fst snd] in G1, G2, G3, Hb. subst r1.
  assert (C1 : connection (self S1) = Some (handles s)) by (by rewrite G1).
  assert (T1 : List.filter is_store_event (trace S1)
               = [ReadSql (handles s); Connect (Some (handles s))]
                 ++ List.filter is_store_event (trace s)).
  { rewrite G3. state_simpl. cbn [List.filter is_store_event].
    rewrite List.filter_app, Hlines. reflexivity. }
  clear G1 G2 G3 Hlines.
  rewrite bind_maybe_print, bind_emit. unfold bind at 1.
  match goal with
  | |- context [export_complete_report E ?d ?S] =>
      destruct (silent_export_complete_report E d S) as (G1 & G2 & G3);
      destruct (export_never_raises E d S) as [b' Hb'];
      destruct (export_complete_report E d S) as [r2 S2]
  end.
  cbn [fst snd] in G1, G2, G3, Hb'. subst r2.
  assert (C2 : connection (self S2) = Some (handles s)).
  { rewrite G1. state_simpl. by destruct b. }
  assert (T2 : List.filter is_store_event (trace S2)
               = [ReadSql (handles s); Connect (Some (handles s))]
                 ++ List.filter is_store_event (trace s)).
  { rewrite G3. state_simpl. by destruct b. }
  clear G1 G2 G3 C1 T1.
  rewrite bind_maybe_print, bind_emit. unfold bind at 1.
  match goal with
  | |- context [add_new_employee E ?w ?x ?y ?z ?S] =>
      destruct (add_new_employee_run E S (handles s) w x y z) as (r & msg & ->)
  end.
  { state_simpl. by destruct b'. }
  rewrite bind_maybe_print, !bind_emit. unfold emit.
  rewrite close_connection_run.
  destruct (truthy_id r), b'; state_simpl; rewrite C2;
    (eexists; split; [reflexivity|]);
    state_simpl; cbn [List.filter is_store_event]; rewrite T2; reflexivity.
Qed.

Lemma store_history_app (new old : list event) :
  store_history (new ++ old) = store_history old ++ store_history new.
Proof. unfold store_history. by rewrite List.filter_app, rev_app_distr. Qed.

(** C7: when the store cannot be reached, at the connection or at the
    query, the run ends normally after logging the failure; it hands no path
    to [to_csv], makes no directory, leaves every file as it was, and does
    not call the insert. *)
Theorem unreachable_store_aborts (E : environment) (s : state) (e : exn) :
  connect_outcome E = Raise e \/
  (connect_outcome E = Ok tt /\ read_sql_outcome E = Raise e) ->
  let run := main E s in
  run.1 = Ok tt /\
  files run.2 = files s /\
  dirs run.2 = dirs s /\
  exists new,
    trace run.2 = new ++ banner ++ trace s /\
    List.filter is_output_event new = [] /\
    List.filter is_insert new = [] /\
    List.filter is_error_log new =
      [ Log ERROR
          (match connect_outcome E with
           | Raise _ =>
               match exn_kind e with
               | MySQLError => "Error connecting to MySQL database: "
               | _ => "An error occurred during system execution: "
               end
           | Ok _ => "Error fetching employee data: "
           end +:+ exn_msg e) ] /\
    store_history new =
      match connect_outcome E with
      | Raise _ => [ Connect None ]
      | Ok _ => [ Connect (Some (handles s)); ReadSql (handles s); Close (handles s) ]
      end.
Proof.
  intros [Hc|[Hc Hq]] run; subst run.
  - rewrite (main_connect_fails E s e Hc), Hc. cbn [fst snd files dirs trace].
    repeat split.
    exists (match exn_kind e with
            | MySQLError =>
                [ Print "Failed to connect to database. Please check your credentials.";
                  Log ERROR ("Error connecting to MySQL database: " +:+ exn_msg e) ]
            | _ => [ Log ERROR ("An error occurred during system execution: "
                                +:+ exn_msg e) ]
            end ++ [Connect None]).
    split; [by rewrite <- app_assoc|].
    destruct (exn_kind e); repeat split; reflexivity.
  - rewrite (main_query_fails E s e Hc Hq), Hc. cbn [fst snd files dirs trace].
    repeat split.
    eexists. split; [reflexivity|]. repeat split; reflexivity.
Qed.

Lemma unreachable_store_aborts_demo :
  let run := main unreachable_env blank in
  run.1 = Ok tt /\
  files run.2 = ∅ /\
  dirs run.2 = ∅ /\
  exists new,
    trace run.2 = new ++ banner ++ [] /\
    List.filter is_output_event new = [] /\
    List.filter is_insert new = [] /\
    List.filter is_error_log new =
      [ Log ERROR "Error connecting to MySQL database: Can't connect to MySQL server" ] /\
    store_history new = [ Connect None ].
Proof.
  exact (unreachable_store_aborts unreachable_env blank
           (Exn MySQLError "Can't connect to MySQL server") (or_introl eq_refl)).
Defined.

(** C8, as the code has it: a run makes one attempt to connect. When it
    succeeds, that one connection is the one the query and, if the run gets
    that far, the one insert are made on, and it is closed as the last call
    to the store, also when the query fails. When it fails, no connection is
    opened and none is closed. *)
Theorem connection_discipline (E : environment) (s : state) :
  let tr := trace (main E s).2 in
  let c := handles s in
  store_history tr =
    store_history (trace s) ++
    match connect_outcome E with
    | Raise _ => [ Connect None ]
    | Ok _ =>
        match read_sql_outcome E with
        | Raise _ => [ Connect (Some c); ReadSql c; Close c ]
        | Ok _ => [ Connect (Some c); ReadSql c;
                    Insert c "Alex Johnson" 62000 14 19; Close c ]
        end
    end /\
  opened tr = opened (trace s) ++ match connect_outcome E with Ok _ => [c] | Raise _ => [] end /\
  closed tr = closed (trace s) ++ match connect_outcome E with Ok _ => [c] | Raise _ => [] end /\
  (forall u, connect_outcome E = Ok u -> trace s = [] ->
             one_connection_opened_and_released tr).
Proof.
  intros tr c. subst tr c.
  assert (H : store_history (trace (main E s).2) =
    store_history (trace s) ++
    match connect_outcome E with
    | Raise _ => [ Connect None ]
    | Ok _ =>
        match read_sql_outcome E with
        | Raise _ => [ Connect (Some (handles s)); ReadSql (handles s); Close (handles s) ]
        | Ok _ => [ Connect (Some (handles s)); ReadSql (handles s);
                    Insert (handles s) "Alex Johnson" 62000 14 19; Close (handles s) ]
        end
    end).
  { destruct (connect_outcome E) as [[]|e] eqn:Hc.
    - destruct (read_sql_outcome E) as [rows|e] eqn:Hq.
      + destruct (main_full_run E s rows Hc Hq) as (s' & -> & Hs').
        cbn [snd]. unfold store_history. rewrite Hs', rev_app_distr. reflexivity.
      + rewrite (main_query_fails E s e Hc Hq). cbn [snd trace].
        rewrite store_history_app. unfold banner. rewrite store_history_app.
        cbn. by rewrite !app_nil_r.
    - rewrite (main_connect_fails E s e Hc). cbn [snd trace].
      rewrite store_history_app.
      change (Connect None :: banner ++ trace s)
        with ([Connect None] ++ banner ++ trace s).
      rewrite !store_history_app. unfold banner.
      destruct (exn_kind e); cbn; by rewrite !app_nil_r. }
  assert (Ho : forall tr', opened tr' = omap (fun ev => match ev with Connect (Some c) => Some c | _ => None end) (store_history tr')) by reflexivity.
  assert (Hcl : forall tr', closed tr' = omap (fun ev => match ev with Close c => Some c | _ => None end) (store_history tr')) by reflexivity.
  assert (Hopen : opened (trace (main E s).2) =
            opened (trace s) ++
            match connect_outcome E with Ok _ => [handles s] | Raise _ => [] end).
  { rewrite (Ho (trace (main E s).2)), H, omap_app, <- Ho.
    destruct (connect_outcome E); [|reflexivity].
    by destruct (read_sql_outcome E). }
  assert (Hclose : closed (trace (main E s).2) =
            closed (trace s) ++
            match connect_outcome E with Ok _ => [handles s] | Raise _ => [] end).
  { rewrite (Hcl (trace (main E s).2)), H, omap_app, <- Hcl.
    destruct (connect_outcome E); [|reflexivity].
    by destruct (read_sql_outcome E). }
  repeat split; [exact H | exact Hopen | exact Hclose |].
  intros u Hu Hs. exists (handles s).
  rewrite Hopen, Hclose, Hs, Hu. split; reflexivity.
Qed.

(** A run against a store that answers: one connection, opened and closed. *)
Lemma connection_discipline_demo :
  one_connection_opened_and_released (trace (main (demo_env [alex; cents]) blank).2).
Proof.
  exact (proj2 (proj2 (proj2 (connection_discipline (demo_env [alex; cents]) blank)))
           tt eq_refl eq_refl).
Defined.

(** C8, as stated, fails: when the store cannot be reached the run opens no
    connection and closes none. *)
Lemma unreachable_run_opens_nothing :
  let tr := trace (main unreachable_env blank).2 in
  store_history tr = [ Connect None ] /\
  opened tr = [] /\
  closed tr = [] /\
  ~ one_connection_opened_and_released tr.
Proof.
  cbv zeta. repeat split; try reflexivity.
  intros (c & Ho & _). vm_compute in Ho. discriminate Ho.
Qed.

(** * Further properties of the methods *)

(** ** Columns: assignment and lookup *)

Lemma lookup_assign_eq (c : string) (v : Series) (cols : list (string * Series)) :
  lookup_col c (assign_col c v cols) = Some v.
Proof.
  induction cols as [|[k v0] cols IH]; cbn [assign_col lookup_col].
  - by rewrite String.eqb_refl.
  - destruct (String.eqb k c) eqn:Hk; cbn [lookup_col]; by rewrite Hk.
Qed.

Lemma lookup_assign_ne (c c' : string) (v : Series) (cols : list (string * Series)) :
  c <> c' -> lookup_col c' (assign_col c v cols) = lookup_col c' cols.
Proof.
  intros Hne. induction cols as [|[k v0] cols IH]; cbn [assign_col lookup_col].
  - by apply String.eqb_neq in Hne as ->.
  - destruct (String.eqb k c) eqn:Hk; cbn [lookup_col]; [|by rewrite IH].
    apply String.eqb_eq in Hk as ->. by apply String.eqb_neq in Hne as ->.
Qed.

Lemma getitem_present (df : DataFrame) (c : string) (v : Series) :
  lookup_col c (columns df) = Some v -> getitem df c = Ok v.
Proof. intros H. unfold getitem. by rewrite H. Qed.

Lemma getitem_missing (df : DataFrame) (c : string) :
  lookup_col c (columns df) = None -> getitem df c = Raise (Exn KeyError c).
Proof. intros H. unfold getitem. by rewrite H. Qed.

(** ** The derivation step on a table that lacks a column *)

(** X1: when the table has no [basic_salary] column, or none for
    [bonus_percentage], the derivation step returns its error result, logs
    one error and leaves the table, and everything else, as it was. *)
Theorem calculate_without_raw_column (s : state) (l : loc) (df : DataFrame) :
  df_employees (self s) = Some l ->
  heap s !! l = Some df ->
  lookup_col "basic_salary" (columns df) = None \/
  lookup_col "bonus_percentage" (columns df) = None ->
  exists msg,
    calculate_salary_components s = (Ok None, add_event (Log ERROR msg) s).
Proof.
  intros Hdf Hl Hmiss. unfold calculate_salary_components.
  unfold bind at 1, get_self. rewrite Hdf. unfold try_except.
  unfold bind at 1. rewrite (df_getitem_run l _ s df Hl).
  destruct (lookup_col "basic_salary" (columns df)) as [b|] eqn:Hb.
  - destruct Hmiss as [Hm|Hm]; [discriminate Hm|].
    rewrite (getitem_present df _ b Hb).
    unfold bind at 1. rewrite (df_getitem_run l _ s df Hl).
    rewrite (getitem_missing df _ Hm). by eexists.
  - rewrite (getitem_missing df _ Hb). by eexists.
Qed.

Lemma calculate_without_raw_column_demo :
  exists msg,
    calculate_salary_components
      (holding (mkDataFrame 1 [("employee_id", SInt [7%Z]); ("name", SObj ["Alex Johnson"])]))
    = (Ok None,
       add_event (Log ERROR msg)
         (holding (mkDataFrame 1 [("employee_id", SInt [7%Z]); ("name", SObj ["Alex Johnson"])]))).
Proof.
  exact (calculate_without_raw_column
           (holding (mkDataFrame 1 [("employee_id", SInt [7%Z]); ("name", SObj ["Alex Johnson"])]))
           0 _ eq_refl eq_refl (or_introl eq_refl)).
Defined.

(** X2: when the table has float columns [basic_salary] and
    [bonus_percentage] but no [tax_percentage], the derivation step returns
    its error result after it has assigned the [bonus] column: the table is
    left with a [bonus] column that has not been rounded, and no [tax] or
    [net_salary] column is added. *)
Theorem calculate_without_tax_rate (s : state) (l : loc) (df : DataFrame)
    (b p : list float) :
  df_employees (self s) = Some l ->
  heap s !! l = Some df ->
  lookup_col "basic_salary" (columns df) = Some (SFloat b) ->
  lookup_col "bonus_percentage" (columns df) = Some (SFloat p) ->
  lookup_col "tax_percentage" (columns df) = None ->
  let run := calculate_salary_components s in
  let left := setitem df "bonus"
                (SFloat (zip_with PrimFloat.mul b ((fun v => (v / 100)%float) <$> p))) in
  run.1 = Ok None /\
  heap run.2 = <[l := left]> (heap s) /\
  lookup_col "tax" (columns left) = lookup_col "tax" (columns df) /\
  lookup_col "net_salary" (columns left) = lookup_col "net_salary" (columns df) /\
  exists msg, trace run.2 = Log ERROR msg :: trace s.
Proof.
  intros Hdf Hl Hb Hp Ht run left. subst run.
  assert (Hlt : <[l := left]> (heap s) !! l = Some left)
    by (by eapply heap_insert_lookup).
  assert (Hrun : exists msg,
    calculate_salary_components s =
      (Ok None, add_event (Log ERROR msg) (set_heap (<[l := left]> (heap s)) s))).
  { unfold calculate_salary_components.
    unfold bind at 1, get_self. rewrite Hdf. unfold try_except.
    unfold bind at 1. rewrite (df_getitem_run l _ s df Hl), (getitem_present df _ _ Hb).
    unfold bind at 1. rewrite (df_getitem_run l _ s df Hl), (getitem_present df _ _ Hp).
    unfold bind at 1, lift at 1. cbn [series_truediv_scalar].
    unfold bind at 1, lift at 1. cbn [series_mul series_binop].
    unfold bind at 1. rewrite (df_setitem_run l _ _ s df Hl). fold left.
    unfold bind at 1. erewrite df_getitem_run by exact Hlt.
    rewrite (getitem_present left "basic_salary" (SFloat b))
      by (subst left; cbn [setitem columns]; by rewrite lookup_assign_ne).
    unfold bind at 1. erewrite df_getitem_run by exact Hlt.
    rewrite (getitem_missing left "tax_percentage")
      by (subst left; cbn [setitem columns]; by rewrite lookup_assign_ne).
    by eexists. }
  destruct Hrun as [msg ->]. cbn [fst snd heap trace add_event set_heap].
  split; [reflexivity|]. split; [reflexivity|].
  split; [subst left; cbn [setitem columns]; by rewrite lookup_assign_ne|].
  split; [subst left; cbn [setitem columns]; by rewrite lookup_assign_ne|].
  by eexists.
Qed.

Lemma calculate_without_tax_rate_demo :
  let run := calculate_salary_components (holding no_tax_rate) in
  let left := setitem no_tax_rate "bonus" (SFloat [5998.682621000001%float]) in
  run.1 = Ok None /\
  heap run.2 = [left] /\
  lookup_col "tax" (columns left) = None /\
  lookup_col "net_salary" (columns left) = None /\
  exists msg, trace run.2 = [Log ERROR msg].
Proof.
  exact (calculate_without_tax_rate (holding no_tax_rate) 0 no_tax_rate
           [45001.37%float] [13.33%float] eq_refl eq_refl eq_refl eq_refl eq_refl).
Defined.

(** ** Which methods can raise *)

Lemma calculate_never_raises : never_raises calculate_salary_components.
Proof.
  intros s. unfold calculate_salary_components, bind at 1, get_self.
  destruct (df_employees (self s)); [|by exists None].
  apply try_except_never_raises. intros e s'. by exists None.
Qed.

(** X3: the derivation step and the two exports catch every exception: in
    any state and any world they return a value; the two exports return
    [False] whenever no table is held. *)
Theorem exports_and_derivation_catch_everything :
  never_raises calculate_salary_components /\
  (forall E output_dir, never_raises (generate_salary_slips E output_dir)) /\
  (forall E filename, never_raises (export_complete_report E filename)) /\
  (forall E output_dir s, df_employees (self s) = None ->
     (generate_salary_slips E output_dir s).1 = Ok false /\
     files (generate_salary_slips E output_dir s).2 = files s) /\
  (forall E filename s, df_employees (self s) = None ->
     (export_complete_report E filename s).1 = Ok false /\
     files (export_complete_report E filename s).2 = files s).
Proof.
  split; [exact calculate_never_raises|].
  split; [exact generate_never_raises|].
  split; [exact export_never_raises|].
  split; intros E d s Hdf.
  - assert (H : generate_salary_slips E d s =
                (Ok false,
                 add_event (Log ERROR "No employee data available for salary slip generation") s))
      by (unfold generate_salary_slips, bind at 1, get_self; by rewrite Hdf).
    by rewrite H.
  - assert (H : export_complete_report E d s =
                (Ok false, add_event (Log ERROR "No employee data available for export") s))
      by (unfold export_complete_report, bind at 1, get_self; by rewrite Hdf).
    by rewrite H.
Qed.

(** ** Fetching *)

(** X4: with a connection in hand, a query that fails makes
    [fetch_employee_data] return [None] without raising and without
    reconnecting; the table held before, if any, stays in place. *)
Theorem failed_fetch_keeps_table (E : environment) (s : state) (c : conn) (e : exn) :
  connection (self s) = Some c ->
  read_sql_outcome E = Raise e ->
  let run := fetch_employee_data E s in
  run.1 = Ok None /\
  self run.2 = self s /\
  heap run.2 = heap s /\
  files run.2 = files s /\
  List.filter is_store_event (trace run.2)
    = ReadSql c :: List.filter is_store_event (trace s) /\
  List.filter is_error_log (trace run.2)
    = Log ERROR ("Error fetching employee data: " +:+ exn_msg e)
      :: List.filter is_error_log (trace s).
Proof.
  intros Hc Hq run. subst run.
  rewrite (fetch_employee_data_run E s c Hc), Hq. cbn. done.
Qed.

Lemma failed_fetch_keeps_table_demo :
  let s := holding (derived_frame [alex]) in
  let run := fetch_employee_data query_fails_env s in
  run.1 = Ok None /\
  self run.2 = self s /\
  heap run.2 = [derived_frame [alex]] /\
  files run.2 = ∅ /\
  List.filter is_store_event (trace run.2) = [ReadSql 0] /\
  List.filter is_error_log (trace run.2)
    = [Log ERROR "Error fetching employee data: Lost connection to MySQL server"].
Proof.
  exact (failed_fetch_keeps_table query_fails_env (holding (derived_frame [alex])) 0
           (Exn MySQLError "Lost connection to MySQL server") eq_refl eq_refl).
Defined.

(** Fetching without a connection, call by call. *)
Lemma fetch_unconnected_run (E : environment) (s : state) :
  connection (self s) = None ->
  fetch_employee_data E s =
    match connect_outcome E with
    | Ok _ =>
        let o := with_connection (Some (handles s)) (self s) in
        let tr := Log INFO "Successfully connected to MySQL database"
                    :: Connect (Some (handles s)) :: trace s in
        match read_sql_outcome E with
        | Ok rows =>
            (Ok (Some (length (heap s))),
             mkState (with_df (Some (length (heap s))) o)
               (heap s ++ [read_sql_frame rows]) (files s) (dirs s)
               (Log INFO ("Successfully fetched " +:+ pretty (length rows)
                          +:+ " employee records")
                  :: ReadSql (handles s) :: tr)
               (clock s) (S (handles s)))
        | Raise e =>
            (Ok None,
             mkState o (heap s) (files s) (dirs s)
               (Log ERROR ("Error fetching employee data: " +:+ exn_msg e)
                  :: ReadSql (handles s) :: tr)
               (clock s) (S (handles s)))
        end
    | Raise e =>
        match exn_kind e with
        | MySQLError =>
            (Ok None,
             mkState (self s) (heap s) (files s) (dirs s)
               (Log ERROR ("Error connecting to MySQL database: " +:+ exn_msg e)
                  :: Connect None :: trace s)
               (clock s) (handles s))
        | _ =>
            (Raise e,
             mkState (self s) (heap s) (files s) (dirs s) (Connect None :: trace s)
               (clock s) (handles s))
        end
    end.
Proof.
  intros Hc. unfold fetch_employee_data, bind at 1, get_self. rewrite Hc.
  unfold bind at 1. rewrite connect_database_run.
  destruct (connect_outcome E) as [u|e].
  - cbn [negb]. unfold try_except, bind at 1, get_self.
    cbn [self connection with_connection].
    unfold pd_read_sql, bind, emit, lift.
    destruct (read_sql_outcome E) as [rows|e]; reflexivity.
  - by destruct (exn_kind e).
Qed.

(** X5: without a connection, [fetch_employee_data] connects first. If that
    succeeds the query goes to the connection just opened. If it fails with
    the connector's error the method returns [None] and sends no query; any
    other exception of the connect call leaves the method as it is, uncaught.
    In both failures [df_employees] is as before. *)
Theorem fetch_connects_first (E : environment) (s : state) :
  connection (self s) = None ->
  let run := fetch_employee_data E s in
  match connect_outcome E with
  | Ok _ =>
      connection (self run.2) = Some (handles s) /\
      List.filter is_store_event (trace run.2)
        = ReadSql (handles s) :: Connect (Some (handles s))
          :: List.filter is_store_event (trace s) /\
      exists r, run.1 = Ok r
  | Raise e =>
      run.1 = match exn_kind e with MySQLError => Ok None | _ => Raise e end /\
      self run.2 = self s /\
      heap run.2 = heap s /\
      List.filter is_store_event (trace run.2)
        = Connect None :: List.filter is_store_event (trace s)
  end.
Proof.
  intros Hc run. subst run. rewrite (fetch_unconnected_run E s Hc).
  destruct (connect_outcome E) as [u|e].
  - destruct (read_sql_outcome E) as [rows|e]; cbn;
      (split; [done|]; split; [done|]); by eexists.
  - destruct (exn_kind e); cbn; done.
Qed.

Lemma fetch_connects_first_demo :
  let run := fetch_employee_data (demo_env [alex]) idle in
  connection (self run.2) = Some 0 /\
  List.filter is_store_event (trace run.2) = [ReadSql 0; Connect (Some 0)] /\
  exists r, run.1 = Ok r.
Proof.
  exact (fetch_connects_first (demo_env [alex]) idle eq_refl).
Defined.

(** X6: every successful fetch builds a new table object holding just the
    five selected columns and makes [df_employees] refer to it; the object
    held before is not changed, so columns derived earlier are not carried
    over. *)
Theorem fetch_replaces_table (E : environment) (s : state) (c : conn)
    (rows : list employee) (l : loc) (old : DataFrame) :
  connection (self s) = Some c ->
  read_sql_outcome E = Ok rows ->
  df_employees (self s) = Some l ->
  heap s !! l = Some old ->
  let run := fetch_employee_data E s in
  exists l',
    run.1 = Ok (Some l') /\
    l' <> l /\
    df_employees (self run.2) = Some l' /\
    heap run.2 !! l' = Some (read_sql_frame rows) /\
    heap run.2 !! l = Some old /\
    iterrows (read_sql_frame rows) = raw_row <$> rows /\
    cell (read_sql_frame rows) "bonus" 0 = None.
Proof.
  intros Hc Hq Hdf Hl run. subst run.
  rewrite (fetch_employee_data_run E s c Hc), Hq. cbn [fst snd self heap].
  pose proof (lookup_lt_Some _ _ _ Hl) as Hlt.
  exists (length (heap s)). split; [reflexivity|]. split; [lia|].
  split; [reflexivity|]. split; [apply heap_alloc_lookup|].
  split; [by rewrite lookup_app_l|]. split; [|reflexivity].
  apply iterrows_rows. intros i. unfold row_at. cbn.
  rewrite !list_lookup_fmap. by destruct (rows !! i).
Qed.

Lemma fetch_replaces_table_demo :
  let run := fetch_employee_data (demo_env [alex; cents]) (holding (derived_frame [alex])) in
  exists l',
    run.1 = Ok (Some l') /\
    l' <> 0 /\
    df_employees (self run.2) = Some l' /\
    heap run.2 !! l' = Some (read_sql_frame [alex; cents]) /\
    heap run.2 !! 0 = Some (derived_frame [alex]) /\
    iterrows (read_sql_frame [alex; cents]) = raw_row <$> [alex; cents] /\
    cell (read_sql_frame [alex; cents]) "bonus" 0 = None.
Proof.
  exact (fetch_replaces_table (demo_env [alex; cents]) (holding (derived_frame [alex])) 0
           [alex; cents] 0 (derived_frame [alex]) eq_refl eq_refl eq_refl eq_refl).
Defined.

(** ** Connections *)

(** X7: [connect_database] does not look at [self.connection]: called while
    a connection is open, it opens another and makes [self.connection] refer
    to it, without closing the first; a later [close_connection] closes the
    second only. *)
Theorem reconnect_leaks_connection (E : environment) (s : state) (c : conn) :
  connect_outcome E = Ok tt ->
  connection (self s) = Some c ->
  let s1 := (connect_database E s).2 in
  let s2 := (close_connection s1).2 in
  (connect_database E s).1 = Ok true /\
  connection (self s1) = Some (handles s) /\
  List.filter is_store_event (trace s2)
    = Close (handles s) :: Connect (Some (handles s))
      :: List.filter is_store_event (trace s).
Proof.
  intros Ho Hc s1 s2. subst s2 s1.
  rewrite connect_database_run, Ho. cbn [fst snd].
  rewrite close_connection_run. cbn. done.
Qed.

Lemma reconnect_leaks_connection_demo :
  let E := demo_env [alex] in
  let s := holding (derived_frame [alex]) in
  let s1 := (connect_database E s).2 in
  let s2 := (close_connection s1).2 in
  (connect_database E s).1 = Ok true /\
  connection (self s1) = Some 1 /\
  List.filter is_store_event (trace s2) = [Close 1; Connect (Some 1)].
Proof.
  exact (reconnect_leaks_connection (demo_env [alex]) (holding (derived_frame [alex])) 0
           eq_refl eq_refl).
Defined.

(** X8: [close_connection] closes the connection but leaves
    [self.connection] set; a fetch made afterwards does not reconnect and
    sends its query on the closed connection; a second [close_connection]
    closes the same connection again. *)
Theorem closed_connection_is_reused (E : environment) (s : state) (c : conn) :
  connection (self s) = Some c ->
  let s1 := (close_connection s).2 in
  self s1 = self s /\
  List.filter is_store_event (trace (fetch_employee_data E s1).2)
    = ReadSql c :: Close c :: List.filter is_store_event (trace s) /\
  List.filter is_store_event (trace (close_connection s1).2)
    = Close c :: Close c :: List.filter is_store_event (trace s).
Proof.
  intros Hc s1. subst s1. rewrite (close_connection_run s), Hc. cbn [snd self].
  split; [reflexivity|]. split.
  - erewrite fetch_employee_data_run by exact Hc.
    by destruct (read_sql_outcome E).
  - rewrite close_connection_run. cbn [self]. by rewrite Hc.
Qed.

Lemma closed_connection_is_reused_demo :
  let s := holding (derived_frame [alex]) in
  let s1 := (close_connection s).2 in
  self s1 = self s /\
  List.filter is_store_event (trace (fetch_employee_data (demo_env [alex]) s1).2)
    = [ReadSql 0; Close 0] /\
  List.filter is_store_event (trace (close_connection s1).2) = [Close 0; Close 0].
Proof.
  exact (closed_connection_is_reused (demo_env [alex]) (holding (derived_frame [alex])) 0
           eq_refl).
Defined.

(** ** Adding an employee *)

Lemma add_new_employee_connected (E : environment) (s : state) (c : conn)
    (who : string) (basic bonus tax : float) :
  connection (self s) = Some c ->
  add_new_employee E who basic bonus tax s =
    match insert_outcome E with
    | Ok id =>
        (Ok (Some id),
         mkState (self s) (heap s) (files s) (dirs s)
           (Log INFO ("New employee added successfully with ID: " +:+ pretty id)
              :: Insert c who basic bonus tax :: trace s)
           (clock s) (handles s))
    | Raise e =>
        (Ok None,
         mkState (self s) (heap s) (files s) (dirs s)
           (Log ERROR ("Error adding new employee: " +:+ exn_msg e)
              :: Insert c who basic bonus tax :: trace s)
           (clock s) (handles s))
    end.
Proof.
  intros Hc. unfold add_new_employee, bind at 1, get_self. rewrite Hc.
  unfold bind at 1, ret. cbn [negb].
  unfold try_except, bind at 1, get_self. rewrite Hc.
  unfold mysql_insert, bind, emit, lift.
  by destruct (insert_outcome E).
Qed.

(** X9: with a connection in hand, [add_new_employee] sends one insert on
    it and returns the id the store assigned, or [False] when the insert
    fails, without raising; it changes neither the table held in memory nor
    any file: the new employee is not in [df_employees] until the next fetch. *)
Theorem add_new_employee_keeps_table (E : environment) (s : state) (c : conn)
    (who : string) (basic bonus tax : float) :
  connection (self s) = Some c ->
  let run := add_new_employee E who basic bonus tax s in
  run.1 = match insert_outcome E with Ok id => Ok (Some id) | Raise _ => Ok None end /\
  self run.2 = self s /\
  heap run.2 = heap s /\
  files run.2 = files s /\
  List.filter is_store_event (trace run.2)
    = Insert c who basic bonus tax :: List.filter is_store_event (trace s).
Proof.
  intros Hc run. subst run.
  rewrite (add_new_employee_connected E s c who basic bonus tax Hc).
  by destruct (insert_outcome E).
Qed.

Lemma add_new_employee_keeps_table_demo :
  let s := holding (derived_frame [alex]) in
  let run := add_new_employee (demo_env [alex]) "Cents" 45001.37 13.33 19.5 s in
  run.1 = Ok (Some 11%Z) /\
  self run.2 = self s /\
  heap run.2 = [derived_frame [alex]] /\
  files run.2 = ∅ /\
  List.filter is_store_event (trace run.2) = [Insert 0 "Cents" 45001.37 13.33 19.5].
Proof.
  exact (add_new_employee_keeps_table (demo_env [alex]) (holding (derived_frame [alex])) 0
           "Cents" 45001.37 13.33 19.5 eq_refl).
Defined.

(** X10: without a connection, [add_new_employee] connects first and
    inserts on the connection it opened; when the connect call fails with
    the connector's error it returns [False] and sends no insert, and any
    other exception of the connect call leaves the method uncaught. *)
Theorem add_new_employee_connects_first (E : environment) (s : state)
    (who : string) (basic bonus tax : float) :
  connection (self s) = None ->
  let run := add_new_employee E who basic bonus tax s in
  match connect_outcome E with
  | Ok _ =>
      run.1 = match insert_outcome E with Ok id => Ok (Some id) | Raise _ => Ok None end /\
      connection (self run.2) = Some (handles s) /\
      List.filter is_store_event (trace run.2)
        = Insert (handles s) who basic bonus tax :: Connect (Some (handles s))
          :: List.filter is_store_event (trace s)
  | Raise e =>
      run.1 = match exn_kind e with MySQLError => Ok None | _ => Raise e end /\
      self run.2 = self s /\
      List.filter is_store_event (trace run.2)
        = Connect None :: List.filter is_store_event (trace s)
  end.
Proof.
  intros Hc run. subst run.
  assert (Hrun : add_new_employee E who basic bonus tax s =
    match connect_database E s with
    | (Ok true, s1) =>
        match insert_outcome E with
        | Ok id =>
            (Ok (Some id),
             add_event (Log INFO ("New employee added successfully with ID: " +:+ pretty id))
               (add_event (Insert (handles s) who basic bonus tax) s1))
        | Raise e =>
            (Ok None,
             add_event (Log ERROR ("Error adding new employee: " +:+ exn_msg e))
               (add_event (Insert (handles s) who basic bonus tax) s1))
        end
    | (Ok false, s1) => (Ok None, s1)
    | (Raise e, s1) => (Raise e, s1)
    end).
  { unfold add_new_employee, bind at 1, get_self. rewrite Hc.
    unfold bind at 1. rewrite connect_database_run.
    destruct (connect_outcome E) as [u|e].
    - cbn [negb]. unfold try_except, bind at 1, get_self.
      cbn [self connection with_connection].
      unfold mysql_insert, bind, emit, lift.
      by destruct (insert_outcome E).
    - by destruct (exn_kind e). }
  rewrite Hrun, connect_database_run.
  destruct (connect_outcome E) as [u|e].
  - by destruct (insert_outcome E).
  - by destruct (exn_kind e).
Qed.

Lemma add_new_employee_connects_first_demo :
  let run := add_new_employee (demo_env []) "Alex Johnson" 62000 14 19 idle in
  run.1 = Ok (Some 11%Z) /\
  connection (self run.2) = Some 0 /\
  List.filter is_store_event (trace run.2)
    = [Insert 0 "Alex Johnson" 62000 14 19; Connect (Some 0)].
Proof.
  exact (add_new_employee_connects_first (demo_env []) idle "Alex Johnson" 62000 14 19
           eq_refl).
Defined.

(** ** The per-record export when something goes wrong *)

Lemma write_slip_refused (E : environment) (output_dir : string) (r : employee)
    (s : state) (e : exn) :
  to_csv_outcome E (slip_path E output_dir (employee_id r)) = Raise e ->
  write_slip E output_dir (derived_row r) s =
    (Raise e,
     mkState (self s) (heap s) (files s) (dirs s)
       (ToCsv (slip_path E output_dir (employee_id r)) :: trace s)
       (S (clock s)) (handles s)).
Proof.
  intros Hw. unfold write_slip, to_csv, slip_path in *.
  cbv [bind lift datetime_now emit logger_info row_getitem derived_row
       lookup_cell String.eqb Ascii.eqb Bool.eqb add_event tick set_files].
  cbn [self heap files dirs trace clock handles].
  rewrite Hw. reflexivity.
Qed.

(** The loop, when the writes go through up to a record and that record's
    write is refused. *)
Lemma for_each_slips_refused (E : environment) (output_dir : string)
    (done_ : list employee) (r : employee) (rest : list employee) (s : state) (e : exn) :
  (forall r', r' ∈ done_ ->
     to_csv_outcome E (slip_path E output_dir (employee_id r')) = Ok tt) ->
  to_csv_outcome E (slip_path E output_dir (employee_id r)) = Raise e ->
  for_each (derived_row <$> (done_ ++ r :: rest)) (write_slip E output_dir) s =
    (Raise e,
     mkState (self s) (heap s)
       (slips_written E output_dir done_ (clock s) (files s))
       (dirs s)
       (ToCsv (slip_path E output_dir (employee_id r))
          :: slip_events E output_dir done_ ++ trace s)
       (S (clock s + length done_)) (handles s)).
Proof.
  revert s. induction done_ as [|r0 done_ IH]; intros s Hok Hbad.
  - cbn [app fmap list_fmap for_each]. unfold bind.
    rewrite (write_slip_refused E output_dir r s e Hbad).
    cbn. by rewrite Nat.add_0_r.
  - cbn [app fmap list_fmap for_each]. unfold bind.
    rewrite write_slip_run by (apply Hok; left).
    change (list_fmap employee Row derived_row (done_ ++ r :: rest))
      with (derived_row <$> (done_ ++ r :: rest)).
    rewrite IH by (try (intros r' Hr'; apply Hok; by right); exact Hbad).
    cbn. rewrite <- app_assoc. cbn. do 2 f_equal. lia.
Qed.

(** X11: when the write of one record's slip is refused, the per-record
    export stops there and returns [False]: the slips of the records before
    it stay on disk, the refused write is the last one attempted, and no file
    of a later record is written. *)
Theorem refused_slip_stops_export (E : environment) (output_dir : string) (s : state)
    (l : loc) (done_ : list employee) (r : employee) (rest : list employee) (e : exn) :
  df_employees (self s) = Some l ->
  heap s !! l = Some (derived_frame (done_ ++ r :: rest)) ->
  output_dir ∈ dirs s ->
  (forall r', r' ∈ done_ ->
     to_csv_outcome E (slip_path E output_dir (employee_id r')) = Ok tt) ->
  to_csv_outcome E (slip_path E output_dir (employee_id r)) = Raise e ->
  let run := generate_salary_slips E output_dir s in
  run.1 = Ok false /\
  files run.2 = slips_written E output_dir done_ (clock s) (files s) /\
  written (trace run.2)
    = slip_path E output_dir (employee_id r)
      :: rev ((fun r' => slip_path E output_dir (employee_id r')) <$> done_)
      ++ written (trace s) /\
  (forall p, (forall r', r' ∈ done_ -> p <> slip_path E output_dir (employee_id r')) ->
             files run.2 !! p = files s !! p) /\
  List.filter is_error_log (trace run.2)
    = Log ERROR ("Error generating salary slips: " +:+ exn_msg e)
      :: List.filter is_error_log (trace s).
Proof.
  intros Hdf Hl Hdir Hok Hbad run. subst run.
  assert (Hrun : generate_salary_slips E output_dir s =
    (Ok false,
     mkState (self s) (heap s)
       (slips_written E output_dir done_ (clock s) (files s))
       (dirs s)
       (Log ERROR ("Error generating salary slips: " +:+ exn_msg e)
          :: ToCsv (slip_path E output_dir (employee_id r))
          :: slip_events E output_dir done_ ++ trace s)
       (S (clock s + length done_)) (handles s))).
  { destruct s as [o h fs ds tr ck hd]; cbn in *.
    set (s0 := mkState o h fs ds tr ck hd).
    assert (Hex : os_path_exists output_dir s0 = (Ok true, s0)).
    { unfold os_path_exists. cbn [dirs s0]. by rewrite bool_decide_eq_true_2. }
    unfold generate_salary_slips.
    cbv [bind get_self try_except]. cbn [self]. rewrite Hdf, Hex. clear Hex.
    subst s0; cbn.
    erewrite deref_run by heap_lookup. rewrite iterrows_derived.
    rewrite (for_each_slips_refused E output_dir done_ r rest _ e Hok Hbad).
    reflexivity. }
  rewrite Hrun. cbn [fst snd files trace].
  split; [reflexivity|]. split; [reflexivity|]. split; [|split].
  - change (Log ERROR ?m :: ToCsv ?p :: ?t) with ([Log ERROR m; ToCsv p] ++ t).
    unfold written at 1. rewrite omap_app. cbn [omap list_omap app].
    fold (written (slip_events E output_dir done_ ++ trace s)).
    by rewrite written_slip_events.
  - intros p Hp. by apply slips_written_other.
  - cbn [List.filter is_error_log]. rewrite List.filter_app. f_equal.
    assert (Hnone : List.filter is_error_log (slip_events E output_dir done_) = []).
    { clear. induction done_ as [|r0 done_ IH]; [done|].
      cbn [slip_events]. rewrite List.filter_app, IH. reflexivity. }
    by rewrite Hnone.
Qed.

Lemma refused_slip_stops_export_demo :
  let E := world (Ok tt) (Ok [alex; cents; odd_one]) (Ok 11%Z) accepting
             (refusing "salary_slips/salary_slip_9.csv") in
  let s := mkState (self (holding (derived_frame [alex; cents; odd_one])))
             [derived_frame ([alex] ++ cents :: [odd_one])] ∅ {["salary_slips"]} [] 0 1 in
  let run := generate_salary_slips E "salary_slips" s in
  run.1 = Ok false /\
  files run.2 = slips_written E "salary_slips" [alex] 0 ∅ /\
  written (trace run.2)
    = [ "salary_slips/salary_slip_9.csv"; "salary_slips/salary_slip_7.csv" ] /\
  (forall p, (forall r', r' ∈ [alex] -> p <> slip_path E "salary_slips" (employee_id r')) ->
             files run.2 !! p = (∅ : gmap string DataFrame) !! p) /\
  List.filter is_error_log (trace run.2)
    = [ Log ERROR "Error generating salary slips: Permission denied" ].
Proof.
  refine (refused_slip_stops_export
            (world (Ok tt) (Ok [alex; cents; odd_one]) (Ok 11%Z) accepting
               (refusing "salary_slips/salary_slip_9.csv"))
            "salary_slips"
            (mkState (self (holding (derived_frame [alex; cents; odd_one])))
               [derived_frame ([alex] ++ cents :: [odd_one])] ∅ {["salary_slips"]} [] 0 1)
            0 [alex] cents [odd_one] (Exn OSError "Permission denied")
            eq_refl eq_refl _ _ eq_refl).
  - cbn [dirs]. by apply elem_of_singleton_2.
  - intros r' Hr'. apply list_elem_of_singleton in Hr' as ->. reflexivity.
Defined.

Lemma iterrows_fetched (rows : list employee) :
  iterrows (read_sql_frame rows) = raw_row <$> rows.
Proof.
  apply iterrows_rows. intros i. unfold row_at. cbn.
  rewrite !list_lookup_fmap. by destruct (rows !! i).
Qed.

Lemma write_slip_raw (E : environment) (output_dir : string) (r : employee) (s : state) :
  write_slip E output_dir (raw_row r) s = (Raise (Exn KeyError "bonus"), s).
Proof. reflexivity. Qed.

(** X12: on a table that has been fetched but not derived, and has at least
    one record, the per-record export returns [False] and writes nothing: the
    first row has no [bonus] cell, and the loop ends before the clock is read
    or any path is handed to [to_csv]. This holds whether the output
    directory exists, is made, or cannot be made. *)
Theorem slips_need_derived_columns (E : environment) (output_dir : string) (s : state)
    (l : loc) (r : employee) (rest : list employee) :
  df_employees (self s) = Some l ->
  heap s !! l = Some (read_sql_frame (r :: rest)) ->
  let run := generate_salary_slips E output_dir s in
  run.1 = Ok false /\
  files run.2 = files s /\
  heap run.2 = heap s /\
  clock run.2 = clock s /\
  written (trace run.2) = written (trace s).
Proof.
  intros Hdf Hl run. subst run.
  assert (Hrun : exists ds tr,
    generate_salary_slips E output_dir s =
      (Ok false, mkState (self s) (heap s) (files s) ds tr (clock s) (handles s)) /\
    written tr = written (trace s)).
  { destruct s as [o h fs ds tr ck hd]; cbn in *.
    set (s0 := mkState o h fs ds tr ck hd).
    assert (Hex : os_path_exists output_dir s0
                  = (Ok (bool_decide (output_dir ∈ ds)), s0)) by reflexivity.
    unfold generate_salary_slips.
    cbv [bind get_self try_except]. cbn [self]. rewrite Hdf, Hex. clear Hex.
    destruct (bool_decide (output_dir ∈ ds)); subst s0; cbn.
    - erewrite deref_run by heap_lookup. rewrite iterrows_fetched.
      cbn [fmap list_fmap for_each]. unfold bind. rewrite write_slip_raw.
      by eexists _, _.
    - destruct (makedirs_outcome E output_dir) as [u|e]; cbn.
      + erewrite deref_run by heap_lookup. rewrite iterrows_fetched.
        cbn [fmap list_fmap for_each]. unfold bind. rewrite write_slip_raw.
        by eexists _, _.
      + by eexists _, _. }
  destruct Hrun as (ds & tr & -> & Htr). done.
Qed.

Lemma slips_need_derived_columns_demo :
  let s := holding (read_sql_frame [alex; cents]) in
  let run := generate_salary_slips (demo_env [alex; cents]) "salary_slips" s in
  run.1 = Ok false /\
  files run.2 = ∅ /\
  heap run.2 = [read_sql_frame [alex; cents]] /\
  clock run.2 = 0 /\
  written (trace run.2) = [].
Proof.
  exact (slips_need_derived_columns (demo_env [alex; cents]) "salary_slips"
           (holding (read_sql_frame [alex; cents])) 0 alex [cents] eq_refl eq_refl).
Defined.

Lemma slips_written_last (E : environment) (output_dir : string)
    (rows : list employee) (k : nat) (fs : gmap string DataFrame) (i : nat) (r : employee) :
  rows !! i = Some r ->
  (forall j r', i < j -> rows !! j = Some r' -> employee_id r' <> employee_id r) ->
  slips_written E output_dir rows k fs !! slip_path E output_dir (employee_id r)
  = Some (of_dict (slip_row E r (now E (k + i)))).
Proof.
  revert k fs i. induction rows as [|r0 rows IH]; intros k fs i Hi Hlast; [done|].
  destruct i as [|i]; cbn in Hi.
  - injection Hi as ->. cbn. rewrite slips_written_other.
    + rewrite Nat.add_0_r. apply lookup_insert_eq.
    + intros r' Hr' Heq. apply slip_path_inj in Heq.
      apply list_elem_of_lookup in Hr' as [j Hj].
      apply (Hlast (S j) r'); [lia | exact Hj | by symmetry].
  - cbn. rewrite (IH (S k) _ i Hi).
    + by replace (k + S i) with (S k + i) by lia.
    + intros j r' Hij Hj. apply (Hlast (S j) r'); [lia | exact Hj].
Qed.

(** X13: when two records carry the same employee id their slips go to the
    same path, and the later one overwrites the earlier: after a successful
    per-record export the file of an id holds the slip of the last record
    with that id, stamped with that record's reading of the clock. *)
Theorem last_record_of_an_id_wins (E : environment) (output_dir : string) (s : state)
    (l : loc) (rows : list employee) (i : nat) (r : employee) :
  df_employees (self s) = Some l ->
  heap s !! l = Some (derived_frame rows) ->
  (output_dir ∈ dirs s \/ makedirs_outcome E output_dir = Ok tt) ->
  (forall r', r' ∈ rows ->
     to_csv_outcome E (slip_path E output_dir (employee_id r')) = Ok tt) ->
  rows !! i = Some r ->
  (forall j r', i < j -> rows !! j = Some r' -> employee_id r' <> employee_id r) ->
  let run := generate_salary_slips E output_dir s in
  run.1 = Ok true /\
  files run.2 !! slip_path E output_dir (employee_id r)
    = Some (of_dict (slip_row E r (now E (clock s + i)))) /\
  (forall j r', rows !! j = Some r' -> employee_id r' = employee_id r ->
     slip_path E output_dir (employee_id r') = slip_path E output_dir (employee_id r) /\
     j <= i) /\
  length (written (trace run.2)) = length rows + length (written (trace s)).
Proof.
  intros Hdf Hl Hdir Hw Hi Hlast run. subst run.
  destruct (generate_run E output_dir s l rows Hdf Hl Hdir Hw) as (ds & made & -> & Hmade).
  cbn [fst snd files trace]. split; [reflexivity|].
  split; [by apply slips_written_last|]. split.
  - intros j r' Hj Hid. split; [by rewrite Hid|].
    destruct (decide (j <= i)) as [|Hgt]; [done|].
    exfalso. apply (Hlast j r'); [lia | exact Hj | exact Hid].
  - change (Log INFO ?m :: ?t) with ([Log INFO m] ++ t).
    unfold written at 1. rewrite omap_app. cbn [omap list_omap app].
    fold (written (slip_events E output_dir rows ++ made ++ trace s)).
    rewrite written_slip_events, Hmade, length_app, length_rev, length_fmap. done.
Qed.

Lemma last_record_of_an_id_wins_demo :
  let E := demo_env [alex; mkEmployee 7 "Namesake" 1000 10 20] in
  let s := holding (derived_frame [alex; mkEmployee 7 "Namesake" 1000 10 20]) in
  let run := generate_salary_slips E "salary_slips" s in
  run.1 = Ok true /\
  files run.2 !! "salary_slips/salary_slip_7.csv"
    = Some (of_dict (slip_row E (mkEmployee 7 "Namesake" 1000 10 20) "2024-01-31 09:00:01")) /\
  (forall j r', [alex; mkEmployee 7 "Namesake" 1000 10 20] !! j = Some r' ->
     employee_id r' = 7%Z ->
     slip_path E "salary_slips" (employee_id r') = "salary_slips/salary_slip_7.csv" /\
     j <= 1) /\
  length (written (trace run.2)) = 2.
Proof.
  refine (last_record_of_an_id_wins
            (demo_env [alex; mkEmployee 7 "Namesake" 1000 10 20]) "salary_slips"
            (holding (derived_frame [alex; mkEmployee 7 "Namesake" 1000 10 20]))
            0 [alex; mkEmployee 7 "Namesake" 1000 10 20] 1
            (mkEmployee 7 "Namesake" 1000 10 20)
            eq_refl eq_refl (or_intror eq_refl) (fun _ _ => eq_refl) eq_refl _).
  intros [|[|[|j]]] r' Hlt Hj; try lia; discriminate Hj.
Defined.

(** X14: when the output directory is missing and cannot be made, the
    per-record export returns [False] at once: it reads neither the table
    nor the clock and hands no path to [to_csv]. *)
Theorem unmakeable_directory_stops_export (E : environment) (output_dir : string)
    (s : state) (l : loc) (e : exn) :
  df_employees (self s) = Some l ->
  output_dir ∉ dirs s ->
  makedirs_outcome E output_dir = Raise e ->
  generate_salary_slips E output_dir s =
    (Ok false,
     mkState (self s) (heap s) (files s) (dirs s)
       (Log ERROR ("Error generating salary slips: " +:+ exn_msg e)
          :: MakeDirs output_dir :: trace s)
       (clock s) (handles s)).
Proof.
  intros Hdf Hdir Hmk. destruct s as [o h fs ds tr ck hd]; cbn in *.
  set (s0 := mkState o h fs ds tr ck hd).
  assert (Hex : os_path_exists output_dir s0 = (Ok false, s0)).
  { unfold os_path_exists. cbn [dirs s0]. by rewrite bool_decide_eq_false_2. }
  unfold generate_salary_slips.
  cbv [bind get_self try_except]. cbn [self]. rewrite Hdf, Hex. clear Hex.
  subst s0; cbn. rewrite Hmk. reflexivity.
Qed.

Lemma unmakeable_directory_stops_export_demo :
  generate_salary_slips
    (world (Ok tt) (Ok [alex]) (Ok 11%Z) (refusing "salary_slips") accepting)
    "salary_slips" (holding (derived_frame [alex]))
  = (Ok false,
     mkState (self (holding (derived_frame [alex]))) [derived_frame [alex]] ∅ ∅
       [ Log ERROR "Error generating salary slips: Permission denied";
         MakeDirs "salary_slips" ]
       0 1).
Proof.
  refine (unmakeable_directory_stops_export
            (world (Ok tt) (Ok [alex]) (Ok 11%Z) (refusing "salary_slips") accepting)
            "salary_slips" (holding (derived_frame [alex])) 0
            (Exn OSError "Permission denied") eq_refl _ eq_refl).
  cbn [dirs holding]. apply not_elem_of_empty.
Defined.

(** ** The reporting step before the derivation *)

(** X15: [display_salary_summary] has no handler of its own: on a table
    that has been fetched but not derived it prints the heading, the table,
    the count and the total of the basic salaries, eight lines in all, and
    then the lookup of the [bonus] column raises a [KeyError] that leaves the
    method; nothing but the printed lines has changed. *)
Theorem summary_needs_derived_columns (E : environment) (s : state) (l : loc)
    (rows : list employee) :
  df_employees (self s) = Some l ->
  heap s !! l = Some (read_sql_frame rows) ->
  exists lines,
    display_salary_summary E s =
      (Raise (Exn KeyError "bonus"),
       mkState (self s) (heap s) (files s) (dirs s) (lines ++ trace s)
               (clock s) (handles s)) /\
    length lines = 8 /\
    List.filter is_error_log lines = [] /\
    List.filter is_store_event lines = [] /\
    written lines = [].
Proof.
  intros Hdf Hl. destruct s as [o h fs ds tr ck hd]; cbn in *.
  unfold display_salary_summary.
  cbv [bind get_self print emit]; cbn. rewrite Hdf.
  unfold read_sql_frame in Hl.
  repeat py_frame_step.
  eexists (_ :: _ :: _ :: _ :: _ :: _ :: _ :: [_]).
  split; [reflexivity|]. repeat split; reflexivity.
Qed.

Lemma summary_needs_derived_columns_demo :
  exists lines,
    display_salary_summary (demo_env [alex]) (holding (read_sql_frame [alex])) =
      (Raise (Exn KeyError "bonus"),
       mkState (self (holding (read_sql_frame [alex]))) [read_sql_frame [alex]] ∅ ∅
               (lines ++ []) 0 1) /\
    length lines = 8 /\
    List.filter is_error_log lines = [] /\
    List.filter is_store_event lines = [] /\
    written lines = [].
Proof.
  exact (summary_needs_derived_columns (demo_env [alex]) (holding (read_sql_frame [alex])) 0
           [alex] eq_refl eq_refl).
Defined.

(** ** The aggregate export: what its result says *)



(** X17: running the aggregate export twice on the same derived table
    overwrites the file: the second file has the same rows as the first but
    for the stamp, which is that of the next clock reading; the table held in
    memory is the same after both, and no other file is touched. *)
Theorem export_twice_differs_in_stamp (E : environment) (filename : string) (s : state)
    (l : loc) (rows : list employee) :
  df_employees (self s) = Some l ->
  heap s !! l = Some (derived_frame rows) ->
  to_csv_outcome E filename = Ok tt ->
  let s1 := (export_complete_report E filename s).2 in
  let s2 := (export_complete_report E filename s1).2 in
  exists out1 out2,
    files s1 !! filename = Some out1 /\
    files s2 !! filename = Some out2 /\
    iterrows out1 = (fun r => derived_row r ++ [("report_generated", VStr (now E (clock s)))])
                      <$> rows /\
    iterrows out2 = (fun r => derived_row r ++ [("report_generated", VStr (now E (S (clock s))))])
                      <$> rows /\
    heap s2 !! l = Some (derived_frame rows) /\
    df_employees (self s2) = Some l /\
    (forall p, p <> filename -> files s2 !! p = files s !! p).
Proof.
  intros Hdf Hl Hw s1 s2. subst s2 s1.
  pose proof (lookup_lt_Some _ _ _ Hl) as Hlt.
  rewrite (export_run E filename s l _ Hdf Hl), Hw. cbv zeta. cbn [snd].
  erewrite export_run;
    [ | cbn [self]; exact Hdf | cbn [heap]; by rewrite lookup_app_l ].
  rewrite Hw. cbv zeta. cbn [snd files heap self clock].
  exists (setitem_scalar (derived_frame rows) "report_generated" (now E (clock s))),
         (setitem_scalar (derived_frame rows) "report_generated" (now E (S (clock s)))).
  split; [apply lookup_insert_eq|]. split; [apply lookup_insert_eq|].
  split; [apply iterrows_report|]. split; [apply iterrows_report|].
  split; [by rewrite !lookup_app_l by (rewrite ?length_app; lia)|].
  split; [exact Hdf|].
  intros p Hp. by rewrite !lookup_insert_ne.
Qed.

Lemma export_twice_differs_in_stamp_demo :
  let E := demo_env [alex; cents] in
  let s := holding (derived_frame [alex; cents]) in
  let s1 := (export_complete_report E "complete_salary_report.csv" s).2 in
  let s2 := (export_complete_report E "complete_salary_report.csv" s1).2 in
  exists out1 out2,
    files s1 !! "complete_salary_report.csv" = Some out1 /\
    files s2 !! "complete_salary_report.csv" = Some out2 /\
    iterrows out1 = (fun r => derived_row r ++ [("report_generated", VStr "2024-01-31 09:00:00")])
                      <$> [alex; cents] /\
    iterrows out2 = (fun r => derived_row r ++ [("report_generated", VStr "2024-01-31 09:00:01")])
                      <$> [alex; cents] /\
    heap s2 !! 0 = Some (derived_frame [alex; cents]) /\
    df_employees (self s2) = Some 0 /\
    (forall p, p <> "complete_salary_report.csv" -> files s2 !! p = files s !! p).
Proof.
  exact (export_twice_differs_in_stamp (demo_env [alex; cents]) "complete_salary_report.csv"
           (holding (derived_frame [alex; cents])) 0 [alex; cents]
           eq_refl eq_refl eq_refl).
Defined.

(** ** Complete runs of [main] *)

(** A run in which the store answers, from the insert on: the end of the
    trace, whatever the exports did. *)
Lemma main_full_run_tail (E : environment) (s : state) (rows : list employee) :
  connect_outcome E = Ok tt ->
  read_sql_outcome E = Ok rows ->
  exists s' rest,
    main E s = (Ok tt, s') /\
    trace s' =
      closing E (handles s) ++
      match insert_outcome E with
      | Ok id =>
          (if Z.eqb id 0 then []
           else [ Print ("New employee added with ID: " +:+ pretty id) ]) ++
          [ Log INFO ("New employee added successfully with ID: " +:+ pretty id) ]
      | Raise e => [ Log ERROR ("Error adding new employee: " +:+ exn_msg e) ]
      end ++
      Insert (handles s) "Alex Johnson" 62000 14 19
        :: Print (nl +:+ "7. Adding new employee (Example)...") :: rest.
Proof.
  intros Hc Hq. unfold main, print. rewrite !bind_emit.
  unfold bind at 1. state_simpl.
  unfold try_finally, try_except, main_try, print. rewrite bind_emit.
  unfold bind at 1. rewrite connect_database_run, Hc. state_simpl.
  rewrite bind_emit. unfold bind at 1.
  erewrite fetch_employee_data_run by reflexivity. rewrite Hq. state_simpl.
  rewrite bind_emit. unfold bind at 1.
  erewrite calculate_on_fetched; [| reflexivity | state_simpl; apply heap_alloc_lookup ].
  state_simpl. rewrite heap_alloc_insert.
  rewrite bind_emit. unfold bind at 1. state_simpl.
  match goal with
  | |- context [display_salary_summary E ?S] =>
      destruct (display_on_derived E S (length (heap s)) rows eq_refl
                  (heap_alloc_lookup _ _)) as (lines & -> & _ & _)
  end.
  state_simpl. rewrite bind_emit. unfold bind at 1.
  match goal with
  | |- context [generate_salary_slips E ?d ?S] =>
      destruct (silent_generate_salary_slips E d S) as (G1 & _ & _);
      destruct (generate_never_raises E d S) as [b Hb];
      destruct (generate_salary_slips E d S) as [r1 S1]
  end.
  cbn [fst snd] in G1, Hb. subst r1.
  assert (C1 : connection (self S1) = Some (handles s)) by (by rewrite G1).
  clear G1.
  rewrite bind_maybe_print, bind_emit. unfold bind at 1.
  match goal with
  | |- context [export_complete_report E ?d ?S] =>
      destruct (silent_export_complete_report E d S) as (G1 & _ & _);
      destruct (export_never_raises E d S) as [b' Hb'];
      destruct (export_complete_report E d S) as [r2 S2]
  end.
  cbn [fst snd] in G1, Hb'. subst r2.
  assert (C2 : connection (self S2) = Some (handles s)).
  { rewrite G1. state_simpl. by destruct b. }
  clear G1 C1.
  rewrite bind_maybe_print, bind_emit. unfold bind at 1.
  erewrite add_new_employee_connected by (state_simpl; destruct b'; exact C2).
  unfold closing.
  destruct (insert_outcome E) as [id|e];
    rewrite bind_maybe_print, !bind_emit; unfold emit;
    rewrite close_connection_run; cbn [truthy_id].
  - destruct (Z.eqb id 0), b'; cbn [negb]; state_simpl; rewrite C2;
      eexists _, _; (split; [reflexivity|]); reflexivity.
  - destruct b'; state_simpl; rewrite C2;
      eexists _, _; (split; [reflexivity|]); reflexivity.
Qed.

(** X18: once the connection and the query have succeeded, [main] runs to
    its end whatever the two exports and the insert do: it attempts the
    insert, prints that the execution completed successfully, closes the
    connection and returns normally, also when every write is refused and the
    insert fails. *)
Theorem main_reports_success_regardless (E : environment) (s : state)
    (rows : list employee) :
  connect_outcome E = Ok tt ->
  read_sql_outcome E = Ok rows ->
  (main E s).1 = Ok tt /\
  exists middle rest,
    trace (main E s).2 =
      [ Log INFO "Database connection closed";
        Close (handles s);
        Print (str_repeat "=" 60);
        Print "SYSTEM EXECUTION COMPLETED SUCCESSFULLY!";
        Print (nl +:+ str_repeat "=" 60) ] ++
      middle ++
      Insert (handles s) "Alex Johnson" 62000 14 19
        :: Print (nl +:+ "7. Adding new employee (Example)...") :: rest.
Proof.
  intros Hc Hq.
  destruct (main_full_run_tail E s rows Hc Hq) as (s' & rest & -> & Htr).
  cbn [fst snd]. split; [reflexivity|]. rewrite Htr. by eexists _, rest.
Qed.

Lemma main_reports_success_regardless_demo :
  let E := world (Ok tt) (Ok [alex]) (Raise (Exn MySQLError "Duplicate entry"))
             rejecting rejecting in
  (main E blank).1 = Ok tt /\
  exists middle rest,
    trace (main E blank).2 =
      [ Log INFO "Database connection closed";
        Close 0;
        Print (str_repeat "=" 60);
        Print "SYSTEM EXECUTION COMPLETED SUCCESSFULLY!";
        Print (nl +:+ str_repeat "=" 60) ] ++
      middle ++
      Insert 0 "Alex Johnson" 62000 14 19
        :: Print (nl +:+ "7. Adding new employee (Example)...") :: rest.
Proof.
  exact (main_reports_success_regardless
           (world (Ok tt) (Ok [alex]) (Raise (Exn MySQLError "Duplicate entry"))
              rejecting rejecting)
           blank [alex] eq_refl eq_refl).
Defined.

(** X19: [main] announces the new employee only when the id the insert
    returned is truthy: for an id other than 0 it prints it right after the
    method's own log line, for the id 0 it prints nothing, although the
    insert succeeded and was logged as such. *)
Theorem zero_id_is_not_announced (E : environment) (s : state)
    (rows : list employee) (id : Z) :
  connect_outcome E = Ok tt ->
  read_sql_outcome E = Ok rows ->
  insert_outcome E = Ok id ->
  exists rest,
    trace (main E s).2 =
      [ Log INFO "Database connection closed";
        Close (handles s);
        Print (str_repeat "=" 60);
        Print "SYSTEM EXECUTION COMPLETED SUCCESSFULLY!";
        Print (nl +:+ str_repeat "=" 60) ] ++
      (if Z.eqb id 0 then []
       else [ Print ("New employee added with ID: " +:+ pretty id) ]) ++
      Log INFO ("New employee added successfully with ID: " +:+ pretty id)
        :: Insert (handles s) "Alex Johnson" 62000 14 19 :: rest.
Proof.
  intros Hc Hq Hi.
  destruct (main_full_run_tail E s rows Hc Hq) as (s' & rest & -> & Htr).
  cbn [snd]. rewrite Htr, Hi. eexists. unfold closing.
  rewrite <- !app_assoc. reflexivity.
Qed.

Lemma zero_id_is_not_announced_demo :
  exists rest,
    trace (main (world (Ok tt) (Ok [alex]) (Ok 0%Z) accepting accepting) blank).2 =
      [ Log INFO "Database connection closed";
        Close 0;
        Print (str_repeat "=" 60);
        Print "SYSTEM EXECUTION COMPLETED SUCCESSFULLY!";
        Print (nl +:+ str_repeat "=" 60);
        Log INFO "New employee added successfully with ID: 0";
        Insert 0 "Alex Johnson" 62000 14 19 ] ++ rest.
Proof.
  exact (zero_id_is_not_announced (world (Ok tt) (Ok [alex]) (Ok 0%Z) accepting accepting)
           blank [alex] 0 eq_refl eq_refl eq_refl).
Defined.

Lemma slip_path_is_not_the_report (E : environment) (id : Z) :
  slip_path E "salary_slips" id <> "complete_salary_report.csv".
Proof.
  unfold slip_path, path_join. rewrite slip_filename_relative. cbn. discriminate.
Qed.

(** A run in which the store answers and every write goes through: the
    state it ends in, but for the trace. *)
Lemma main_full_run_files (E : environment) (s : state) (rows : list employee) :
  connect_outcome E = Ok tt ->
  read_sql_outcome E = Ok rows ->
  ("salary_slips" ∈ dirs s \/ makedirs_outcome E "salary_slips" = Ok tt) ->
  (forall r, r ∈ rows ->
     to_csv_outcome E (slip_path E "salary_slips" (employee_id r)) = Ok tt) ->
  to_csv_outcome E "complete_salary_report.csv" = Ok tt ->
  exists s',
    main E s = (Ok tt, s') /\
    files s' =
      <["complete_salary_report.csv" :=
          stamped (derived_frame rows) (now E (clock s + length rows))]>
        (slips_written E "salary_slips" rows (clock s) (files s)) /\
    heap s' =
      heap s ++ [derived_frame rows] ++
      [stamped (derived_frame rows) (now E (clock s + length rows))] /\
    clock s' = S (clock s + length rows) /\
    df_employees (self s') = Some (length (heap s)).
Proof.
  intros Hc Hq Hdir Hw Hr. unfold main, print. rewrite !bind_emit.
  unfold bind at 1. state_simpl.
  unfold try_finally, try_except, main_try, print. rewrite bind_emit.
  unfold bind at 1. rewrite connect_database_run, Hc. state_simpl.
  rewrite bind_emit. unfold bind at 1.
  erewrite fetch_employee_data_run by reflexivity. rewrite Hq. state_simpl.
  rewrite bind_emit. unfold bind at 1.
  erewrite calculate_on_fetched; [| reflexivity | state_simpl; apply heap_alloc_lookup ].
  state_simpl. rewrite heap_alloc_insert.
  rewrite bind_emit. unfold bind at 1. state_simpl.
  match goal with
  | |- context [display_salary_summary E ?S] =>
      destruct (display_on_derived E S (length (heap s)) rows eq_refl
                  (heap_alloc_lookup _ _)) as (lines & -> & _ & _)
  end.
  state_simpl. rewrite bind_emit. unfold bind at 1.
  match goal with
  | |- context [generate_salary_slips E ?d ?S] =>
      destruct (generate_run E d S (length (heap s)) rows eq_refl
                  (heap_alloc_lookup _ _) Hdir Hw) as (ds & made & -> & _)
  end.
  state_simpl. rewrite !bind_emit. unfold bind at 1.
  erewrite export_run; [| reflexivity | state_simpl; apply heap_alloc_lookup ].
  rewrite Hr. cbv zeta. state_simpl. rewrite !bind_emit. unfold bind at 1.
  erewrite add_new_employee_connected by reflexivity.
  destruct (insert_outcome E) as [id|e];
    rewrite bind_maybe_print, !bind_emit; unfold emit;
    rewrite close_connection_run; cbn [truthy_id].
  - destruct (Z.eqb id 0); cbn [negb]; state_simpl;
      eexists; (split; [reflexivity|]); state_simpl;
      rewrite <- app_assoc; repeat split; reflexivity.
  - state_simpl. eexists. split; [reflexivity|]. state_simpl.
    rewrite <- app_assoc. repeat split; reflexivity.
Qed.

(** X20: a run of [main] in which the store answers and every write goes
    through ends with exactly the files the program is for: under
    [salary_slips] the slips of the records, stamped with successive clock
    readings, and the aggregate report, stamped with the reading after the
    last slip's; the table held at the end is the derived one, and the files
    outside those paths are untouched. *)
Theorem main_writes_slips_and_report (E : environment) (s : state) (rows : list employee) :
  connect_outcome E = Ok tt ->
  read_sql_outcome E = Ok rows ->
  ("salary_slips" ∈ dirs s \/ makedirs_outcome E "salary_slips" = Ok tt) ->
  (forall r, r ∈ rows ->
     to_csv_outcome E (slip_path E "salary_slips" (employee_id r)) = Ok tt) ->
  to_csv_outcome E "complete_salary_report.csv" = Ok tt ->
  let run := main E s in
  run.1 = Ok tt /\
  (exists out,
     files run.2 !! "complete_salary_report.csv" = Some out /\
     iterrows out =
       (fun r => derived_row r ++
                 [("report_generated", VStr (now E (clock s + length rows)))]) <$> rows) /\
  (NoDup (employee_id <$> rows) ->
   forall i r, rows !! i = Some r ->
     exists slip,
       files run.2 !! slip_path E "salary_slips" (employee_id r) = Some slip /\
       iterrows slip = [slip_row E r (now E (clock s + i))]) /\
  (forall p, p <> "complete_salary_report.csv" ->
             (forall r, r ∈ rows -> p <> slip_path E "salary_slips" (employee_id r)) ->
             files run.2 !! p = files s !! p) /\
  (exists l, df_employees (self run.2) = Some l /\
             heap run.2 !! l = Some (derived_frame rows)).
Proof.
  intros Hc Hq Hdir Hw Hr run. subst run.
  destruct (main_full_run_files E s rows Hc Hq Hdir Hw Hr)
    as (s' & -> & Hfiles & Hheap & _ & Hdf).
  cbn [fst snd]. rewrite Hfiles. split; [reflexivity|]. split; [|split; [|split]].
  - eexists. split; [apply lookup_insert_eq|]. apply iterrows_report.
  - intros Hnd i r Hi. exists (of_dict (slip_row E r (now E (clock s + i)))).
    rewrite lookup_insert_ne by (intros H; symmetry in H; by apply slip_path_is_not_the_report in H).
    split; [by apply slips_written_at | apply iterrows_of_dict].
  - intros p Hp Hslips. rewrite lookup_insert_ne by done.
    by apply slips_written_other.
  - exists (length (heap s)). split; [exact Hdf|].
    rewrite Hheap. by apply list_lookup_middle.
Qed.

Lemma main_writes_slips_and_report_demo :
  let E := demo_env [alex; cents] in
  let run := main E blank in
  run.1 = Ok tt /\
  (exists out,
     files run.2 !! "complete_salary_report.csv" = Some out /\
     iterrows out =
       (fun r => derived_row r ++ [("report_generated", VStr "2024-01-31 09:00:02")])
         <$> [alex; cents]) /\
  (exists slip,
     files run.2 !! "salary_slips/salary_slip_9.csv" = Some slip /\
     iterrows slip = [slip_row E cents "2024-01-31 09:00:01"]) /\
  (exists l, df_employees (self run.2) = Some l /\
             heap run.2 !! l = Some (derived_frame [alex; cents])).
Proof.
  destruct (main_writes_slips_and_report (demo_env [alex; cents]) blank [alex; cents]
              eq_refl eq_refl (or_intror eq_refl) (fun _ _ => eq_refl) eq_refl)
    as (Hok & Hreport & Hslips & _ & Hheld).
  cbv zeta. split; [exact Hok|]. split; [exact Hreport|]. split; [|exact Hheld].
  apply (Hslips) with (i := 1) (r := cents); [|reflexivity].
  apply NoDup_cons. split; [|apply NoDup_singleton].
  intros H. apply list_elem_of_singleton in H. discriminate H.
Defined.

(** ** Empty tables, and tables read but not changed *)

(** X21: on a table with no record, fetched or derived, the per-record
    export succeeds without writing a file or reading the clock; the output
    directory is nevertheless made when it is missing. *)
Theorem slips_of_empty_table (E : environment) (output_dir : string) (s : state)
    (l : loc) :
  df_employees (self s) = Some l ->
  heap s !! l = Some (read_sql_frame []) \/ heap s !! l = Some (derived_frame []) ->
  (output_dir ∈ dirs s \/ makedirs_outcome E output_dir = Ok tt) ->
  let run := generate_salary_slips E output_dir s in
  run.1 = Ok true /\
  files run.2 = files s /\
  clock run.2 = clock s /\
  written (trace run.2) = written (trace s) /\
  output_dir ∈ dirs run.2.
Proof.
  intros Hdf Hl Hdir run. subst run.
  assert (Hrows : exists df, heap s !! l = Some df /\ iterrows df = []).
  { destruct Hl as [Hl|Hl]; eexists; (split; [exact Hl|]); reflexivity. }
  destruct Hrows as (df & Hl' & Hrows). clear Hl.
  assert (Hrun : exists ds tr,
    generate_salary_slips E output_dir s =
      (Ok true, mkState (self s) (heap s) (files s) ds tr (clock s) (handles s)) /\
    written tr = written (trace s) /\ output_dir ∈ ds).
  { destruct s as [o h fs ds tr ck hd]; cbn in *.
    set (s0 := mkState o h fs ds tr ck hd).
    assert (Hex : os_path_exists output_dir s0
                  = (Ok (bool_decide (output_dir ∈ ds)), s0)) by reflexivity.
    unfold generate_salary_slips.
    cbv [bind get_self try_except]. cbn [self]. rewrite Hdf, Hex. clear Hex.
    destruct (bool_decide (output_dir ∈ ds)) eqn:Hthere; subst s0; cbn.
    - erewrite deref_run by heap_lookup. rewrite Hrows. cbn.
      eexists _, _. split; [reflexivity|]. split; [reflexivity|].
      by apply bool_decide_eq_true in Hthere.
    - destruct Hdir as [Hin|Hmk]; [by apply bool_decide_eq_false in Hthere|].
      rewrite Hmk. cbn.
      erewrite deref_run by heap_lookup. rewrite Hrows. cbn.
      eexists _, _. split; [reflexivity|]. split; [reflexivity|].
      apply elem_of_union_l. by apply elem_of_singleton_2. }
  destruct Hrun as (ds & tr & -> & Htr & Hds). done.
Qed.

Lemma slips_of_empty_table_demo :
  let run := generate_salary_slips (demo_env []) "salary_slips"
               (holding (derived_frame [])) in
  run.1 = Ok true /\
  files run.2 = ∅ /\
  clock run.2 = 0 /\
  written (trace run.2) = [] /\
  "salary_slips" ∈ dirs run.2.
Proof.
  exact (slips_of_empty_table (demo_env []) "salary_slips" (holding (derived_frame [])) 0
           eq_refl (or_intror eq_refl) (or_intror eq_refl)).
Defined.

(** X22: on a derived table the reporting step only prints: it returns
    normally after thirteen lines, makes no call to the store, hands no path
    to [to_csv], logs no error, and leaves the object, the tables, the files
    and the clock as they were. *)
Theorem summary_only_prints (E : environment) (s : state) (l : loc)
    (rows : list employee) :
  df_employees (self s) = Some l ->
  heap s !! l = Some (derived_frame rows) ->
  let run := display_salary_summary E s in
  run.1 = Ok tt /\
  self run.2 = self s /\
  heap run.2 = heap s /\
  files run.2 = files s /\
  clock run.2 = clock s /\
  exists lines,
    trace run.2 = lines ++ trace s /\
    length lines = 13 /\
    Forall (fun ev => exists line, ev = Print line) lines.
Proof.
  intros Hdf Hl run. subst run.
  assert (Hrun : exists lines,
    display_salary_summary E s =
      (Ok tt, mkState (self s) (heap s) (files s) (dirs s) (lines ++ trace s)
                      (clock s) (handles s)) /\
    length lines = 13 /\
    Forall (fun ev => exists line, ev = Print line) lines).
  { destruct s as [o h fs ds tr ck hd]; cbn in *.
    unfold display_salary_summary.
    cbv [bind get_self print emit]; cbn. rewrite Hdf.
    unfold derived_frame in Hl.
    repeat py_frame_step.
    eexists (_ :: _ :: _ :: _ :: _ :: _ :: _ :: _ :: _ :: _ :: _ :: _ :: [_]).
    split; [reflexivity|]. split; [reflexivity|].
    repeat (apply Forall_cons; split; [by eexists|]). apply Forall_nil_2. }
  destruct Hrun as (lines & -> & Hlen & Hall). cbn [fst snd self heap files clock trace].
  repeat split. by exists lines.
Qed.

Lemma summary_only_prints_demo :
  let s := holding (derived_frame [alex; cents]) in
  let run := display_salary_summary (demo_env [alex; cents]) s in
  run.1 = Ok tt /\
  self run.2 = self s /\
  heap run.2 = [derived_frame [alex; cents]] /\
  files run.2 = ∅ /\
  clock run.2 = 0 /\
  exists lines,
    trace run.2 = lines ++ [] /\
    length lines = 13 /\
    Forall (fun ev => exists line, ev = Print line) lines.
Proof.
  exact (summary_only_prints (demo_env [alex; cents]) (holding (derived_frame [alex; cents]))
           0 [alex; cents] eq_refl eq_refl).
Defined.

(** X23: the derivation step works on the very object the fetch built: a
    fetch followed by the derivation returns the same table object twice,
    first holding the five selected columns, then, changed in place, the
    eight columns; the derivation sends nothing to the store, writes no file
    and does not read the clock. *)
Theorem derivation_changes_fetched_table_in_place (E : environment) (s : state)
    (c : conn) (rows : list employee) :
  connection (self s) = Some c ->
  read_sql_outcome E = Ok rows ->
  let fetched := fetch_employee_data E s in
  let derived := calculate_salary_components fetched.2 in
  exists l,
    fetched.1 = Ok (Some l) /\
    derived.1 = Ok (Some l) /\
    heap fetched.2 !! l = Some (read_sql_frame rows) /\
    heap derived.2 !! l = Some (derived_frame rows) /\
    length (heap derived.2) = length (heap fetched.2) /\
    files derived.2 = files s /\
    clock derived.2 = clock s /\
    List.filter is_store_event (trace derived.2)
      = List.filter is_store_event (trace fetched.2).
Proof.
  intros Hc Hq fetched derived. subst derived fetched.
  rewrite (fetch_employee_data_run E s c Hc), Hq. cbn [fst snd].
  erewrite calculate_on_fetched; [| reflexivity | cbn [heap]; apply heap_alloc_lookup ].
  cbn [fst snd heap files clock trace add_event set_heap].
  exists (length (heap s)). rewrite heap_alloc_insert.
  split; [reflexivity|]. split; [reflexivity|].
  split; [apply heap_alloc_lookup|]. split; [apply heap_alloc_lookup|].
  split; [by rewrite !length_app|]. repeat split.
Qed.

Lemma derivation_changes_fetched_table_in_place_demo :
  let fetched := fetch_employee_data (demo_env [alex; cents]) (holding (derived_frame [])) in
  let derived := calculate_salary_components fetched.2 in
  exists l,
    fetched.1 = Ok (Some l) /\
    derived.1 = Ok (Some l) /\
    heap fetched.2 !! l = Some (read_sql_frame [alex; cents]) /\
    heap derived.2 !! l = Some (derived_frame [alex; cents]) /\
    length (heap derived.2) = length (heap fetched.2) /\
    files derived.2 = ∅ /\
    clock derived.2 = 0 /\
    List.filter is_store_event (trace derived.2)
      = List.filter is_store_event (trace fetched.2).
Proof.
  exact (derivation_changes_fetched_table_in_place (demo_env [alex; cents])
           (holding (derived_frame [])) 0 [alex; cents] eq_refl eq_refl).
Defined.
